(** * get_transcript.py: extraction of a YouTube video identifier and
      retrieval of its transcript

    A shallow embedding of [src/get_transcript.py] together with the parts
    of CPython's [urllib.parse] (3.11 series) that [extract_video_id] runs
    through: [urlparse], the [hostname] property and [parse_qs].

    - A Python [str] is a list of Unicode code points ([list N]).
    - A Python exception is a value of [exn]; code that may raise returns an
      [outcome].
    - The external transcript service is an event of a small free monad
      ([Prog]); running a program against a service records every call.
    - What the interpreter delegates to Unicode tables, to the UTF-8 codec
      and to the [ipaddress] module is taken as a parameter ([PyRuntime]);
      none of it is consulted on ASCII input without brackets and without
      percent escapes. *)

From Stdlib Require Import NArith Ascii String.
From stdpp Require Import base option list gmap.
#[local] Open Scope N_scope.
#[local] Open Scope list_scope.

(** ** Python strings *)

Abbreviation str := (list N).

Definition chr (a : ascii) : N := N_of_ascii a.

(** [lit "abc"] is the Python literal ['abc']. *)
Definition lit (s : string) : str := chr <$> list_ascii_of_string s.

Module Str.

(** [c in s] for a one-character [c]. *)
Definition contains (c : N) (s : str) : bool := existsb (N.eqb c) s.

(** [s.find(c)]; Python's [-1] is [None]. *)
Fixpoint find (c : N) (s : str) : option nat :=
  match s with
  | [] => None
  | x :: s' => if N.eqb x c then Some O else S <$> find c s'
  end.

(** [s.find(c, start)]; beyond the end of [s] nothing is found. *)
Definition find_from (c : N) (start : nat) (s : str) : option nat :=
  (λ i, (start + i)%nat) <$> find c (drop start s).

(** [s.rfind(c)]. *)
Fixpoint rfind (c : N) (s : str) : option nat :=
  match s with
  | [] => None
  | x :: s' =>
      match rfind c s' with
      | Some i => Some (S i)
      | None => if N.eqb x c then Some O else None
      end
  end.

(** [s.replace(c, "")]. *)
Definition remove (c : N) (s : str) : str :=
  filter (λ x, x ≠ c) s.

(** [s.replace(c, d)] for one-character [c] and [d]. *)
Definition replace (c d : N) (s : str) : str :=
  (λ x, if N.eqb x c then d else x) <$> s.

(** [s.lstrip(chars)]. *)
Fixpoint lstrip (chars : str) (s : str) : str :=
  match s with
  | [] => []
  | x :: s' => if contains x chars then lstrip chars s' else s
  end.

(** [s.startswith(p)]. *)
Fixpoint startswith (p s : str) : bool :=
  match p, s with
  | [], _ => true
  | _ :: _, [] => false
  | a :: p', b :: s' => N.eqb a b && startswith p' s'
  end.

(** [s.split(c)]: always at least one field. *)
Fixpoint split (c : N) (s : str) : list str :=
  match s with
  | [] => [[]]
  | x :: s' =>
      if N.eqb x c then [] :: split c s'
      else match split c s' with
           | f :: fs => (x :: f) :: fs
           | [] => [[x]]
           end
  end.

(** [s.split(c, 1)]. *)
Definition split1 (c : N) (s : str) : list str :=
  match find c s with
  | Some i => [take i s; drop (S i) s]
  | None => [s]
  end.

(** [s.partition(c)]. *)
Definition partition (c : N) (s : str) : str * str * str :=
  match find c s with
  | Some i => (take i s, [c], drop (S i) s)
  | None => (s, [], [])
  end.

(** [s.rpartition(c)]. *)
Definition rpartition (c : N) (s : str) : str * str * str :=
  match rfind c s with
  | Some i => (take i s, [c], drop (S i) s)
  | None => ([], [], s)
  end.

(** The longest prefix of [s] whose characters satisfy [p]. *)
Fixpoint take_while (p : N → bool) (s : str) : str :=
  match s with
  | x :: s' => if p x then x :: take_while p s' else []
  | [] => []
  end.

(** [s.isascii()]. *)
Definition isascii (s : str) : bool := forallb (λ x, x <? 128) s.

Definition is_upper (x : N) : bool := (65 <=? x) && (x <=? 90).
Definition is_lower (x : N) : bool := (97 <=? x) && (x <=? 122).
Definition is_digit (x : N) : bool := (48 <=? x) && (x <=? 57).
Definition is_ascii_alpha (x : N) : bool := is_upper x || is_lower x.
Definition is_hexdig (x : N) : bool :=
  is_digit x || ((65 <=? x) && (x <=? 70)) || ((97 <=? x) && (x <=? 102)).

Definition ascii_lower (s : str) : str :=
  (λ x, if is_upper x then x + 32 else x) <$> s.

End Str.

(** ** Exceptions *)

(** The exception classes that can reach [get_transcript]'s handler.
    [Exception msg] stands for an instance [e] of any other subclass of
    [Exception] with [str(e) = msg]: whatever the service raises. *)
Inductive exn : Type :=
  | KeyError (key : str)
  | IndexError (msg : str)
  | ValueError (msg : str)
  | Exception (msg : str).

(** [repr(s)] for a string of printable characters without quotes or
    backslashes; the only key ever looked up is ['v']. *)
Definition repr (s : str) : str := lit "'" ++ s ++ lit "'".

(** [str(e)]. *)
Definition exn_str (e : exn) : str :=
  match e with
  | KeyError key => repr key
  | IndexError msg | ValueError msg | Exception msg => msg
  end.

Inductive outcome (A : Type) : Type :=
  | Returns (a : A)
  | Raises (e : exn).
Arguments Returns {A} a.
Arguments Raises {A} e.

#[global] Instance outcome_ret : MRet outcome := λ A a, Returns a.
#[global] Instance outcome_bind : MBind outcome := λ A B f m,
  match m with
  | Returns a => f a
  | Raises e => Raises e
  end.

(** [xs[i]] on a list. *)
Definition list_index {A} (xs : list A) (i : nat) : outcome A :=
  match xs !! i with
  | Some x => Returns x
  | None => Raises (IndexError (lit "list index out of range"))
  end.

(** ** What the interpreter provides *)

(** The result of [ipaddress.ip_address(s)]. *)
Inductive ip_parse : Type :=
  | IPv4Address
  | IPv6Address
  | AddressValueError (msg : str).

Class PyRuntime : Type := {
  (** [s.lower()] on a string with a non-ASCII character *)
  unicode_lower : str → str;
  (** [unicodedata.normalize('NFKC', s)] *)
  normalize_NFKC : str → str;
  (** [b.decode('utf-8', 'replace')] on bytes that are not all ASCII *)
  utf8_decode_replace : list N → str;
  (** [ipaddress.ip_address(s)] *)
  ip_address : str → ip_parse
}.

Section UrllibParse.

Context `{PyRuntime}.

(** [s.lower()]. *)
Definition lower (s : str) : str :=
  if Str.isascii s then Str.ascii_lower s else unicode_lower s.

(** [b.decode('utf-8', 'replace')]: ASCII bytes decode to themselves. *)
Definition decode (b : list N) : str :=
  if Str.isascii b then b else utf8_decode_replace b.

Definition uses_params : list str :=
  lit <$> [""; "ftp"; "hdl"; "prospero"; "http"; "imap"; "https"; "shttp";
           "rtsp"; "rtspu"; "sip"; "sips"; "mms"; "sftp"; "tel"]%string.

Definition scheme_chars : str :=
  lit "abcdefghijklmnopqrstuvwxyzABCDEFGHIJKLMNOPQRSTUVWXYZ0123456789+-.".

Definition _WHATWG_C0_CONTROL_OR_SPACE : str := N.of_nat <$> seq 0 33.

Definition _UNSAFE_URL_BYTES_TO_REMOVE : str := [9; 13; 10].

Record ParseResult : Type := {
  scheme : str;
  netloc : str;
  path : str;
  params : str;
  query : str;
  fragment : str
}.

Definition _splitparams (url : str) : str * str :=
  if Str.contains (chr "/") url then
    match Str.rfind (chr "/") url with
    | Some j =>
        match Str.find_from (chr ";") j url with
        | Some i => (take i url, drop (S i) url)
        | None => (url, [])
        end
    | None => (url, [])
    end
  else
    match Str.find (chr ";") url with
    | Some i => (take i url, drop (S i) url)
    | None => (take (length url - 1) url, url) (* [i = -1] *)
    end.

Definition _splitnetloc (url : str) (start : nat) : str * str :=
  let delim :=
    foldl (λ delim c,
             match Str.find_from c start url with
             | Some wdelim => min delim wdelim
             | None => delim
             end) (length url) (lit "/?#") in
  (drop start (take delim url), drop delim url).

Definition _checknetloc (netloc : str) : outcome () :=
  if bool_decide (netloc = []) || Str.isascii netloc then Returns ()
  else
    let n := foldl (λ n c, Str.remove c n) netloc (lit "@:#?") in
    let netloc2 := normalize_NFKC n in
    if bool_decide (n = netloc2) then Returns ()
    else if existsb (λ c, Str.contains c netloc2) (lit "/?#@:")
    then Raises (ValueError (lit "netloc '" ++ netloc ++
           lit "' contains invalid characters under NFKC normalization"))
    else Returns ().

(** [re.match(r"\Av[a-fA-F0-9]+\..+\Z", hostname)]. *)
Definition ipvfuture_match (hostname : str) : bool :=
  match hostname with
  | v :: rest =>
      let hex := Str.take_while Str.is_hexdig rest in
      N.eqb v (chr "v") && negb (bool_decide (hex = [])) &&
      match drop (length hex) rest with
      | dot :: tail =>
          N.eqb dot (chr ".") && negb (bool_decide (tail = [])) &&
          negb (Str.contains 10 tail)
      | [] => false
      end
  | [] => false
  end.

Definition _check_bracketed_host (hostname : str) : outcome () :=
  if Str.startswith (lit "v") hostname then
    if ipvfuture_match hostname then Returns ()
    else Raises (ValueError (lit "IPvFuture address is invalid"))
  else
    match ip_address hostname with
    | AddressValueError msg => Raises (ValueError msg)
    | IPv4Address =>
        Raises (ValueError (lit "An IPv4 address cannot be in brackets"))
    | IPv6Address => Returns ()
    end.

Definition _check_bracketed_netloc (netloc : str) : outcome () :=
  let hostname_and_port := (Str.rpartition (chr "@") netloc).2 in
  let '(before_bracket, have_open_br, bracketed) :=
    Str.partition (chr "[") hostname_and_port in
  if negb (bool_decide (have_open_br = [])) then
    if negb (bool_decide (before_bracket = [])) then
      Raises (ValueError (lit "Invalid IPv6 URL"))
    else
      let '(hostname, _, port) := Str.partition (chr "]") bracketed in
      if negb (bool_decide (port = [])) &&
         negb (Str.startswith (lit ":") port)
      then Raises (ValueError (lit "Invalid IPv6 URL"))
      else _check_bracketed_host hostname
  else
    let '(hostname, _, port) :=
      Str.partition (chr ":") hostname_and_port in
    _check_bracketed_host hostname.

(** [urlsplit(url)] with the default [scheme=''] and
    [allow_fragments=True]; the result has an empty [params]. *)
Definition urlsplit (url : str) : outcome ParseResult :=
  let url := Str.lstrip _WHATWG_C0_CONTROL_OR_SPACE url in
  let url := foldl (λ url b, Str.remove b url) url
                   _UNSAFE_URL_BYTES_TO_REMOVE in
  let '(scheme, url) :=
    match Str.find (chr ":") url, url with
    | Some (S i' as i), c0 :: _ =>
        if Str.is_ascii_alpha c0 &&
           forallb (λ c, Str.contains c scheme_chars) (take i url)
        then (lower (take i url), drop (S i) url)
        else ([], url)
    | _, _ => ([], url)
    end in
  '(netloc, url) ←
    (if bool_decide (take 2 url = lit "//") then
       let '(netloc, url) := _splitnetloc url 2 in
       let open := Str.contains (chr "[") netloc in
       let close := Str.contains (chr "]") netloc in
       if (open && negb close) || (close && negb open)
       then Raises (ValueError (lit "Invalid IPv6 URL"))
       else
         _ ← (if open && close then _check_bracketed_netloc netloc
              else Returns ());
         Returns (netloc, url)
     else Returns ([], url));
  let '(url, fragment) :=
    match Str.split1 (chr "#") url with
    | [url; fragment] => (url, fragment)
    | _ => (url, [])
    end in
  let '(url, query) :=
    match Str.split1 (chr "?") url with
    | [url; query] => (url, query)
    | _ => (url, [])
    end in
  _ ← _checknetloc netloc;
  Returns {| scheme := scheme; netloc := netloc; path := url;
             params := []; query := query; fragment := fragment |}.

Definition urlparse (url : str) : outcome ParseResult :=
  splitresult ← urlsplit url;
  let url := path splitresult in
  let '(url, params) :=
    if bool_decide (scheme splitresult ∈ uses_params) &&
       Str.contains (chr ";") url
    then _splitparams url
    else (url, []) in
  Returns {| scheme := scheme splitresult; netloc := netloc splitresult;
             path := url; params := params;
             query := query splitresult;
             fragment := fragment splitresult |}.

Definition _hostinfo (netloc : str) : str * option str :=
  let hostinfo := (Str.rpartition (chr "@") netloc).2 in
  let '(_, have_open_br, bracketed) := Str.partition (chr "[") hostinfo in
  let '(hostname, port) :=
    if negb (bool_decide (have_open_br = [])) then
      let '(hostname, _, port) := Str.partition (chr "]") bracketed in
      let '(_, _, port) := Str.partition (chr ":") port in
      (hostname, port)
    else
      let '(hostname, _, port) := Str.partition (chr ":") hostinfo in
      (hostname, port) in
  (hostname, if bool_decide (port = []) then None else Some port).

(** The [hostname] property of a parse result. *)
Definition hostname (parsed : ParseResult) : option str :=
  let hostname := (_hostinfo (netloc parsed)).1 in
  if bool_decide (hostname = []) then None
  else
    let '(hostname, percent, zone) := Str.partition (chr "%") hostname in
    Some (lower hostname ++ percent ++ zone).

(** *** Query strings *)

Definition hexval (x : N) : N :=
  if Str.is_digit x then x - 48
  else if Str.is_lower x then x - 87 else x - 55.

(** One field of [string.split(b'%')[1:]]: the byte of [item[:2]] when
    that is two hexadecimal digits, else the field after its ['%']. *)
Definition unquote_item (item : list N) : list N :=
  match item with
  | a :: b :: rest =>
      if Str.is_hexdig a && Str.is_hexdig b
      then (16 * hexval a + hexval b) :: rest
      else chr "%" :: item
  | _ => chr "%" :: item
  end.

(** [unquote_to_bytes(string)] on an ASCII [string], whose UTF-8
    encoding is [string] itself. *)
Definition unquote_to_bytes (string : str) : list N :=
  match Str.split (chr "%") string with
  | bits0 :: (_ :: _) as items => bits0 ++ concat (unquote_item <$> items)
  | _ => string
  end.

(** The maximal runs of [s], each with whether it is ASCII: the fields
    of [_asciire.split(s)] without the empty ones. *)
Fixpoint ascii_runs (s : str) : list (bool * str) :=
  match s with
  | [] => []
  | x :: s' =>
      let a := x <? 128 in
      match ascii_runs s' with
      | (b, r) :: rs =>
          if Bool.eqb a b then (a, x :: r) :: rs
          else (a, [x]) :: (b, r) :: rs
      | [] => [(a, [x])]
      end
  end.

(** [unquote(string)] with the default [encoding='utf-8'] and
    [errors='replace']. *)
Definition unquote (string : str) : str :=
  if negb (Str.contains (chr "%") string) then string
  else
    concat ((λ '(a, r), if a : bool then decode (unquote_to_bytes r)
                        else r) <$> ascii_runs string).

(** The body of the loop of [parse_qsl], for the default
    [keep_blank_values=False] and [strict_parsing=False]: the pair that
    one [name_value] appends to the result, if any. *)
Definition parse_field (name_value : str) : option (str * str) :=
  if bool_decide (name_value = []) then None
  else
    match Str.split1 (chr "=") name_value with
    | [nv0; nv1] =>
        if bool_decide (nv1 = []) then None
        else Some (unquote (Str.replace (chr "+") (chr " ") nv0),
                   unquote (Str.replace (chr "+") (chr " ") nv1))
    | _ => None
    end.

(** [parse_qsl(qs)] with the default [separator='&']. *)
Definition parse_qsl (qs : str) : list (str * str) :=
  let query_args :=
    if bool_decide (qs = []) then [] else Str.split (chr "&") qs in
  omap parse_field query_args.

(** [parse_qs(qs)]. *)
Definition parse_qs (qs : str) : gmap str (list str) :=
  foldl (λ (parsed_result : gmap str (list str)) '(name, value),
           match parsed_result !! name with
           | Some values => <[name := values ++ [value]]> parsed_result
           | None => <[name := [value]]> parsed_result
           end) ∅ (parse_qsl qs).

(** [d[key]]. *)
Definition dict_getitem {V} (d : gmap str V) (key : str) : outcome V :=
  match d !! key with
  | Some v => Returns v
  | None => Raises (KeyError key)
  end.

(** [h in hosts] where [h] may be [None]. *)
Definition in_tuple (h : option str) (hosts : list str) : bool :=
  match h with
  | Some h => bool_decide (h ∈ hosts)
  | None => false
  end.

(** ** [extract_video_id] *)

Definition extract_video_id (url : str) : outcome (option str) :=
  parsed ← urlparse url;
  if in_tuple (hostname parsed) [lit "youtu.be"; lit "www.youtu.be"] then
    Returns (Some (drop 1 (path parsed)))
  else if in_tuple (hostname parsed)
            [lit "youtube.com"; lit "www.youtube.com"] then
    if bool_decide (path parsed = lit "/watch") then
      values ← dict_getitem (parse_qs (query parsed)) (lit "v");
      v ← list_index values 0;
      Returns (Some v)
    else if Str.startswith (lit "/embed/") (path parsed) then
      segment ← list_index (Str.split (chr "/") (path parsed)) 2;
      Returns (Some segment)
    else if Str.startswith (lit "/v/") (path parsed) then
      segment ← list_index (Str.split (chr "/") (path parsed)) 2;
      Returns (Some segment)
    else Returns None
  else Returns None.

End UrllibParse.

(** ** The transcript service and [get_transcript] *)

(** A program that may call [YouTubeTranscriptApi.get_transcript]; the
    continuation receives what the call returns or raises. *)
Inductive Prog (T A : Type) : Type :=
  | Done (a : A)
  | Throw (e : exn)
  | GetTranscript (video_id : str) (k : outcome T → Prog T A).
Arguments Done {T A} a.
Arguments Throw {T A} e.
Arguments GetTranscript {T A} video_id k.

Fixpoint prog_bind {T A B} (f : A → Prog T B) (m : Prog T A) : Prog T B :=
  match m with
  | Done a => f a
  | Throw e => Throw e
  | GetTranscript video_id k =>
      GetTranscript video_id (λ r, prog_bind f (k r))
  end.

#[global] Instance prog_ret {T} : MRet (Prog T) := λ A a, Done a.
#[global] Instance prog_mbind {T} : MBind (Prog T) := λ A B f m,
  prog_bind f m.

(** [try: m except Exception as e: handler(e)]. *)
Fixpoint try_except {T A} (m : Prog T A) (handler : exn → Prog T A)
  : Prog T A :=
  match m with
  | Done a => Done a
  | Throw e => handler e
  | GetTranscript video_id k =>
      GetTranscript video_id (λ r, try_except (k r) handler)
  end.

(** A pure computation inside a program. *)
Definition lift {T A} (o : outcome A) : Prog T A :=
  match o with
  | Returns a => Done a
  | Raises e => Throw e
  end.

(** [YouTubeTranscriptApi.get_transcript(video_id)]. *)
Definition YouTubeTranscriptApi_get_transcript {T} (video_id : str)
  : Prog T T :=
  GetTranscript video_id lift.

(** The service: what its [n]-th call answers to a video identifier. *)
Definition service (T : Type) : Type := nat → str → outcome T.

(** One recorded call: the argument and the answer. *)
Definition call (T : Type) : Type := (str * outcome T)%type.

(** [run svc calls m] runs [m] after the calls [calls] and gives its
    outcome with all calls made so far. *)
Fixpoint run {T A} (svc : service T) (calls : list (call T)) (m : Prog T A)
  : outcome A * list (call T) :=
  match m with
  | Done a => (Returns a, calls)
  | Throw e => (Raises e, calls)
  | GetTranscript video_id k =>
      let r := svc (length calls) video_id in
      run svc (calls ++ [(video_id, r)]) (k r)
  end.

(** The values of the result dictionaries. *)
Inductive pyval (T : Type) : Type :=
  | VBool (b : bool)
  | VStr (s : str)
  | VTranscript (t : T).
Arguments VBool {T} b.
Arguments VStr {T} s.
Arguments VTranscript {T} t.

(** A dictionary literal, in the order of its keys. *)
Definition dict (T : Type) : Type := list (str * pyval T).

Section GetTranscript.

Context `{PyRuntime}.

(** What the service returns: a sequence of segments, opaque here. *)
Variable segment : Type.

(** [not video_id] for a value that is [None] or a string. *)
Definition falsy (video_id : option str) : bool :=
  match video_id with
  | None => true
  | Some s => bool_decide (s = [])
  end.

Definition get_transcript (video_url : str)
  : Prog (list segment) (dict (list segment)) :=
  try_except
    (video_id ← lift (extract_video_id video_url);
     match video_id with
     | None => Done [(lit "error", VStr (lit "Invalid YouTube URL"))]
     | Some id =>
         if falsy video_id then
           Done [(lit "error", VStr (lit "Invalid YouTube URL"))]
         else
           transcript ← YouTubeTranscriptApi_get_transcript id;
           Done [(lit "success", VBool true);
                 (lit "transcript", VTranscript transcript);
                 (lit "video_id", VStr id)]
     end)
    (λ e, Done [(lit "success", VBool false);
                (lit "error", VStr (exn_str e))]).

(** What a run of the script leaves: the dictionaries printed through
    [json.dumps], one per line of standard output, and the exit code. *)
Record process : Type := {
  stdout : list (dict (list segment));
  exit_code : Z
}.

(** The [__main__] block; [argv] is [sys.argv], program name first. *)
Definition main (argv : list str) : Prog (list segment) process :=
  if negb (length argv =? 2)%nat then
    Done {| stdout :=
              [[(lit "error",
                 VStr (lit "Usage: get_transcript.py <youtube_url>"))]];
            exit_code := 1 |}
  else
    url ← lift (list_index argv 1);
    result ← get_transcript url;
    Done {| stdout := [result]; exit_code := 0 |}.

(** The script as a process: an exception that reaches the top level
    prints a traceback on standard error and exits with 1. *)
Definition script (svc : service (list segment)) (argv : list str)
  : process * list (call (list segment)) :=
  match run svc [] (main argv) with
  | (Returns p, calls) => (p, calls)
  | (Raises _, calls) => ({| stdout := []; exit_code := 1 |}, calls)
  end.

End GetTranscript.


(** ** The query string, as the claims read it *)

Section QueryValues.

Context `{PyRuntime}.

(** Decoding of one name or value of a query string: ['+'] is a space and
    [%xx] a byte. *)
Definition form_decode (s : str) : str :=
  unquote (Str.replace (chr "+") (chr " ") s).

(** The values that the query string [qs] gives to the parameter [name],
    in the order of the string: the fields are separated by ['&'], a field
    is [name=value], and a field with an empty value gives none. *)
Definition query_values (name qs : str) : list str :=
  omap (λ field,
          match Str.split1 (chr "=") field with
          | [n; v] =>
              if bool_decide (form_decode n = name ∧ v ≠ [])
              then Some (form_decode v) else None
          | _ => None
          end) (Str.split (chr "&") qs).

(** The values paired with [name] in a list of pairs. *)
Definition values_of (name : str) (pairs : list (str * str)) : list str :=
  omap (λ p, if bool_decide (p.1 = name) then Some p.2 else None) pairs.

(** All the values that the fields [name=value] of the query string [qs]
    give to [name], as they are written and the empty ones included. *)
Definition written_values (name qs : str) : list str :=
  omap (λ field,
          match Str.split1 (chr "=") field with
          | [n; v] => if bool_decide (form_decode n = name) then Some v
                      else None
          | _ => None
          end) (Str.split (chr "&") qs).

(** The host of a URL text: that of its parse, and none when [urlparse]
    has no result for it. *)
Definition url_host (url : str) : option str :=
  match urlparse url with
  | Returns parsed => hostname parsed
  | Raises _ => None
  end.

End QueryValues.

(** ** The result records of the specification *)

(** [{"error": "Invalid YouTube URL"}] *)
Definition invalid_url_result {T} : dict T :=
  [(lit "error", VStr (lit "Invalid YouTube URL"))].

(** [{"success": false, "error": msg}] *)
Definition failure_result {T} (msg : str) : dict T :=
  [(lit "success", VBool false); (lit "error", VStr msg)].

(** [{"success": true, "transcript": t, "video_id": id}] *)
Definition success_result {T} (t : T) (id : str) : dict T :=
  [(lit "success", VBool true); (lit "transcript", VTranscript t);
   (lit "video_id", VStr id)].

(** [{"error": "Usage: get_transcript.py <youtube_url>"}] *)
Definition usage_result {T} : dict T :=
  [(lit "error", VStr (lit "Usage: get_transcript.py <youtube_url>"))].

(** The four hosts that [extract_video_id] knows. *)
Definition short_hosts : list str := [lit "youtu.be"; lit "www.youtu.be"].
Definition long_hosts : list str :=
  [lit "youtube.com"; lit "www.youtube.com"].

(** ** Sample values *)

(** A runtime to evaluate examples with. *)
Definition sample_runtime : PyRuntime :=
  {| unicode_lower := id; normalize_NFKC := id;
     utf8_decode_replace := id; ip_address := λ _, IPv6Address |}.

(** A segment as the service gives it; the two numbers in their JSON
    spelling. *)
Record caption : Type := {
  text : str;
  start : str;
  duration : str
}.

Definition sample_transcript : list caption :=
  [{| text := lit "hi"; start := lit "0.0"; duration := lit "1.2" |}].

(** A service that has captions for every video. *)
Definition sample_service : service (list caption) :=
  λ _ _, Returns sample_transcript.

(** A service that fails on every video. *)
Definition failing_service : service (list caption) :=
  λ _ _, Raises (Exception (lit "Could not retrieve a transcript")).

(** ** Identifiers that a URL carries unchanged *)

(** The characters that URL syntax gives a meaning of their own, and the
    three that [urlsplit] deletes. *)
Definition reserved : str := lit "/?#;&%+" ++ [9; 10; 13].

(** No character of [s] is one of [chars]. *)
Definition avoids (chars s : str) : bool :=
  forallb (λ c, negb (Str.contains c chars)) s.

(** Every character of [s] is one of [chars]. *)
Definition within (chars s : str) : bool :=
  forallb (λ c, Str.contains c chars) s.

Definition unreserved (X : str) : bool := avoids reserved X.

(** What a query adds to the text of a URL. *)
Definition query_suffix (q : option str) : str :=
  match q with
  | Some q => lit "?" ++ q
  | None => []
  end.

(** What a fragment adds to the text of a URL. *)
Definition fragment_suffix (f : option str) : str :=
  match f with
  | Some f => lit "#" ++ f
  | None => []
  end.

(** The network location [user@host:port], where the user information and
    the port may be missing. *)
Definition authority (user : option str) (host : str) (port : option str)
  : str :=
  match user with Some u => u ++ lit "@" | None => [] end ++
  host ++
  match port with Some p => lit ":" ++ p | None => [] end.

(** Further path segments after an identifier. *)
Definition segments_suffix (rest : option str) : str :=
  match rest with
  | Some r => lit "/" ++ r
  | None => []
  end.

(** The three characters that [urlsplit] deletes. *)
Definition unsafe : str := [9; 10; 13].

(** The text of a scheme that [urlsplit] accepts. *)
Definition scheme_ok (sch : str) : bool :=
  match sch with a :: _ => Str.is_ascii_alpha a | [] => false end &&
  within scheme_chars sch.

(** A user information that leaves the network location free of
    delimiters and brackets. *)
Definition user_ok (user : option str) : bool :=
  match user with
  | Some s => avoids (lit "/?#[]" ++ unsafe) s && Str.isascii s
  | None => true
  end.

(** A port, likewise; it has no ['@'] either. *)
Definition port_ok (port : option str) : bool :=
  match port with
  | Some s => avoids (lit "/?#[]@" ++ unsafe) s && Str.isascii s
  | None => true
  end.

(** A host name without a character that has a meaning in a network
    location. *)
Definition host_ok (host : str) : bool :=
  negb (bool_decide (host = [])) &&
  avoids (lit "/?#[]@:%" ++ unsafe) host && Str.isascii host.

(** The host tests of [extract_video_id] on a known host. *)
Ltac eval_in_tuple :=
  repeat match goal with
    | |- context [in_tuple ?h ?t] =>
        let v := eval vm_compute in (in_tuple h t) in
        change (in_tuple h t) with v
    end;
  cbv beta iota.

(** Literals and characters as numerals. *)
Ltac norm_lits :=
  repeat match goal with
    | |- context [lit ?s] =>
        let v := eval vm_compute in (lit s) in change (lit s) with v
    | |- context [chr ?a] =>
        let v := eval vm_compute in (chr a) in change (chr a) with v
    end.

(** * Properties *)

Section StrFacts.

Implicit Types (c : N) (s t : str).

Lemma contains_false c s : Str.contains c s = false ↔ c ∉ s.
Proof.
  unfold Str.contains. induction s as [|x s IH]; simpl.
  - split; [intros _; apply not_elem_of_nil | done].
  - rewrite orb_false_iff, IH, not_elem_of_cons, N.eqb_neq. tauto.
Qed.

Lemma contains_true c s : Str.contains c s = true ↔ c ∈ s.
Proof.
  destruct (Str.contains c s) eqn:E.
  - split; [intros _|done]. destruct (decide (c ∈ s)) as [|Hn]; [done|].
    apply contains_false in Hn. congruence.
  - apply contains_false in E. split; [done | intros ?; by destruct E].
Qed.

Lemma find_None c s : Str.find c s = None ↔ c ∉ s.
Proof.
  induction s as [|x s IH]; simpl.
  - split; [intros _; apply not_elem_of_nil | done].
  - rewrite not_elem_of_cons. destruct (N.eqb_spec x c) as [->|Hne].
    + split; [done | intros [? _]; done].
    + rewrite fmap_None, IH. split; [intros ?; split; congruence | tauto].
Qed.

Lemma find_app c s t :
  Str.find c (s ++ t) =
  match Str.find c s with
  | Some i => Some i
  | None => (λ i, (length s + i)%nat) <$> Str.find c t
  end.
Proof.
  induction s as [|x s IH]; simpl.
  - by destruct (Str.find c t).
  - destruct (N.eqb x c); [done|]. rewrite IH.
    destruct (Str.find c s); [done|]. by destruct (Str.find c t).
Qed.

Lemma rfind_None c s : Str.rfind c s = None ↔ c ∉ s.
Proof.
  induction s as [|x s IH]; simpl.
  - split; [intros _; apply not_elem_of_nil | done].
  - rewrite not_elem_of_cons. destruct (Str.rfind c s) eqn:E.
    + split; [done|]. intros [_ Hs]. by apply IH in Hs.
    + destruct (N.eqb_spec x c) as [->|Hne].
      * split; [done | intros [? _]; done].
      * split; [intros _; split; [congruence | by apply IH] | done].
Qed.

Lemma remove_id c s : c ∉ s → Str.remove c s = s.
Proof.
  unfold Str.remove. induction s as [|x s IH]; [done|].
  rewrite not_elem_of_cons. intros [Hne Hs].
  rewrite filter_cons_True by congruence. by rewrite IH.
Qed.

Lemma replace_id c d s : c ∉ s → Str.replace c d s = s.
Proof.
  unfold Str.replace. induction s as [|x s IH]; [done|].
  rewrite not_elem_of_cons. intros [Hne Hs]. csimpl.
  rewrite IH by done. destruct (N.eqb_spec x c); congruence.
Qed.

Lemma split_id c s : c ∉ s → Str.split c s = [s].
Proof.
  induction s as [|x s IH]; [done|].
  rewrite not_elem_of_cons. intros [Hne Hs]. simpl.
  rewrite IH by done. destruct (N.eqb_spec x c); congruence.
Qed.

Lemma avoids_notin c chars s :
  avoids chars s = true → Str.contains c chars = true → c ∉ s.
Proof.
  unfold avoids. rewrite forallb_forall. intros Hs Hc Hin.
  apply list_elem_of_In, Hs in Hin. by rewrite Hc in Hin.
Qed.

Lemma within_notin c chars s :
  within chars s = true → Str.contains c chars = false → c ∉ s.
Proof.
  unfold within. rewrite forallb_forall. intros Hs Hc Hin.
  apply list_elem_of_In, Hs in Hin. by rewrite Hc in Hin.
Qed.

Lemma avoids_app chars s t :
  avoids chars (s ++ t) = avoids chars s && avoids chars t.
Proof. apply forallb_app. Qed.

Lemma avoids_weaken chars chars' s :
  within chars chars' = true → avoids chars s = true →
  avoids chars' s = true.
Proof.
  unfold avoids, within. rewrite !forallb_forall. intros Hsub Hs c Hc.
  specialize (Hs c Hc). apply negb_true_iff in Hs.
  apply negb_true_iff, contains_false. intros Hin.
  apply list_elem_of_In, Hsub in Hin.
  apply contains_false in Hs. apply Hs.
  unfold Str.contains in Hin. apply existsb_exists in Hin.
  destruct Hin as (x & Hx & Heq). apply N.eqb_eq in Heq. subst x.
  by apply list_elem_of_In.
Qed.

Lemma within_avoids chars chars' s :
  within chars s = true → avoids chars' chars = true →
  avoids chars' s = true.
Proof.
  unfold avoids, within. rewrite !forallb_forall. intros Hs Hd c Hc.
  apply Hs in Hc. apply contains_true, list_elem_of_In in Hc. by apply Hd.
Qed.

Lemma split1_id c s : c ∉ s → Str.split1 c s = [s].
Proof. intros Hc. unfold Str.split1. by rewrite (proj2 (find_None c s)). Qed.

Lemma split1_app c s t :
  c ∉ s → Str.split1 c (s ++ c :: t) = [s; t].
Proof.
  intros Hc. unfold Str.split1.
  rewrite find_app, (proj2 (find_None c s)) by done. simpl.
  rewrite N.eqb_refl. simpl. rewrite Nat.add_0_r.
  rewrite take_app_length. do 2 f_equal.
  rewrite (cons_middle c s t), app_assoc.
  apply drop_app_length'. rewrite length_app. simpl. lia.
Qed.

End StrFacts.


Section UrllibFacts.

Context `{PyRuntime}.

Lemma lstrip_alpha a s :
  Str.is_ascii_alpha a = true →
  Str.lstrip _WHATWG_C0_CONTROL_OR_SPACE (a :: s) = a :: s.
Proof.
  intros Ha.
  assert (Str.contains a _WHATWG_C0_CONTROL_OR_SPACE = false) as Hc;
    [| unfold Str.lstrip; by rewrite Hc].
  apply contains_false. unfold _WHATWG_C0_CONTROL_OR_SPACE.
  rewrite list_elem_of_fmap. intros (n & -> & Hn). apply elem_of_seq in Hn.
  unfold Str.is_ascii_alpha, Str.is_upper, Str.is_lower in Ha.
  apply orb_true_iff in Ha. rewrite !andb_true_iff, !N.leb_le in Ha. lia.
Qed.

Lemma remove_unsafe_id url :
  avoids [9; 10; 13] url = true →
  foldl (λ url b, Str.remove b url) url _UNSAFE_URL_BYTES_TO_REMOVE = url.
Proof.
  intros Hu. unfold _UNSAFE_URL_BYTES_TO_REMOVE. simpl.
  rewrite (remove_id 9 url), (remove_id 13 url), (remove_id 10 url);
    try done; by (eapply avoids_notin; [exact Hu | reflexivity]).
Qed.

Lemma find_from_netloc c net rest :
  c ∉ net →
  Str.find_from c 2 (47 :: 47 :: net ++ rest) =
  (λ i, (2 + length net + i)%nat) <$> Str.find c rest.
Proof.
  intros Hc. unfold Str.find_from.
  change (drop 2 (47 :: 47 :: net ++ rest)) with (net ++ rest).
  rewrite find_app, (proj2 (find_None c net)) by done.
  destruct (Str.find c rest); simpl; [f_equal; lia | done].
Qed.

Lemma _splitnetloc_spec net rest :
  avoids (lit "/?#") net = true →
  match rest with
  | [] => True
  | x :: _ => Str.contains x (lit "/?#") = true
  end →
  _splitnetloc (lit "//" ++ net ++ rest) 2 = (net, rest).
Proof.
  intros Hnet Hrest. unfold _splitnetloc.
  assert ((47 ∉ net) ∧ (63 ∉ net) ∧ (35 ∉ net)) as (H1 & H2 & H3)
    by (split_and!; (eapply avoids_notin; [exact Hnet | reflexivity])).
  norm_lits. cbn [foldl app].
  rewrite !find_from_netloc by done.
  assert (∀ delim, delim = (2 + length net)%nat →
            (drop 2 (take delim (47 :: 47 :: net ++ rest)),
             drop delim (47 :: 47 :: net ++ rest)) = (net, rest)) as Hd.
  { intros ? ->.
    change (take (2 + length net) (47 :: 47 :: net ++ rest))
      with (47 :: 47 :: take (length net) (net ++ rest)).
    change (drop (2 + length net) (47 :: 47 :: net ++ rest))
      with (drop (length net) (net ++ rest)).
    rewrite take_app_length, drop_app_length. done. }
  apply Hd. cbn [length]. rewrite length_app.
  destruct rest as [|x rest]; [simpl; lia|].
  apply contains_true in Hrest. change (lit "/?#") with [47; 63; 35] in Hrest.
  rewrite !elem_of_cons, elem_of_nil in Hrest. cbn [Str.find].
  destruct Hrest as [->|[->|[->|[]]]]; simpl.
  - destruct (Str.find 63 rest), (Str.find 35 rest); simpl; lia.
  - destruct (Str.find 47 rest), (Str.find 35 rest); simpl; lia.
  - destruct (Str.find 47 rest), (Str.find 63 rest); simpl; lia.
Qed.

Lemma ascii_lower_isascii s :
  Str.isascii s = true → lower s = Str.ascii_lower s.
Proof. intros Hs. unfold lower. by rewrite Hs. Qed.

Lemma urlsplit_hier sch net p q :
  match sch with a :: _ => Str.is_ascii_alpha a | [] => false end = true →
  within scheme_chars sch = true →
  avoids (lit "/?#[]" ++ [9; 10; 13]) net = true →
  Str.isascii net = true →
  avoids (lit "?#" ++ [9; 10; 13]) p = true →
  avoids (lit "#" ++ [9; 10; 13]) (default [] q) = true →
  urlsplit (sch ++ lit "://" ++ net ++ lit "/" ++ p ++ query_suffix q) =
  Returns {| scheme := lower sch; netloc := net; path := lit "/" ++ p;
             params := []; query := default [] q; fragment := [] |}.
Proof.
  intros Ha Hsch Hnet Hascii Hp Hq. unfold urlsplit.
  destruct sch as [|a sch']; [done|].
  set (rest := lit "/" ++ p ++ query_suffix q).
  assert (avoids [9; 10; 13] rest = true) as Hrest.
  { unfold rest. rewrite !avoids_app, !andb_true_iff. split_and!.
    - reflexivity.
    - eapply avoids_weaken; [|exact Hp]. reflexivity.
    - destruct q as [q|]; [|done]. unfold query_suffix.
      rewrite avoids_app, andb_true_iff. split; [reflexivity|].
      eapply avoids_weaken; [|exact Hq]. reflexivity. }
  assert (avoids [9; 10; 13] ((a :: sch') ++ lit "://" ++ net ++ rest) = true)
    as Hurl.
  { rewrite !avoids_app, !andb_true_iff. split_and!; [| reflexivity | | done].
    - eapply within_avoids; [exact Hsch | reflexivity].
    - eapply avoids_weaken; [|exact Hnet]. reflexivity. }
  change ((a :: sch') ++ lit "://" ++ net ++ rest)
    with (a :: sch' ++ lit "://" ++ net ++ rest) in *.
  rewrite lstrip_alpha, remove_unsafe_id by done.
  assert (Str.find (chr ":") (a :: sch' ++ lit "://" ++ net ++ rest)
          = Some (S (length sch'))) as ->.
  { change (Str.find (chr ":") ((a :: sch') ++ 58 :: lit "//" ++ net ++ rest)
            = Some (S (length sch'))).
    rewrite find_app, (proj2 (find_None _ _)).
    - simpl. f_equal. lia.
    - eapply within_notin; [exact Hsch | reflexivity]. }
  assert (take (S (length sch')) (a :: sch' ++ lit "://" ++ net ++ rest)
          = a :: sch') as -> by apply (take_app_length (a :: sch')).
  assert (drop (S (S (length sch'))) (a :: sch' ++ lit "://" ++ net ++ rest)
          = lit "//" ++ net ++ rest) as ->.
  { change (drop (S (length sch')) (sch' ++ [58] ++ lit "//" ++ net ++ rest)
            = lit "//" ++ net ++ rest).
    rewrite app_assoc. apply drop_app_length'. rewrite length_app. simpl. lia. }
  fold (within scheme_chars (a :: sch')). rewrite Ha, Hsch. cbn [andb].
  rewrite (bool_decide_true (take 2 (lit "//" ++ net ++ rest) = lit "//"))
    by done.
  rewrite _splitnetloc_spec; [| by eapply avoids_weaken; [|exact Hnet] | done].
  assert (Str.contains (chr "[") net = false) as ->
    by (apply contains_false; eapply avoids_notin; [exact Hnet|reflexivity]).
  assert (Str.contains (chr "]") net = false) as ->
    by (apply contains_false; eapply avoids_notin; [exact Hnet|reflexivity]).
  cbn [andb orb negb mbind outcome_bind].
  assert (35 ∉ rest) as H35.
  { unfold rest. rewrite !not_elem_of_app. split_and!.
    - by apply contains_false.
    - eapply avoids_notin; [exact Hp | reflexivity].
    - destruct q as [q|]; [|apply not_elem_of_nil]. unfold query_suffix.
      rewrite not_elem_of_app. split; [by apply contains_false|].
      eapply avoids_notin; [exact Hq | reflexivity]. }
  assert (63 ∉ lit "/" ++ p) as H63.
  { rewrite not_elem_of_app. split; [by apply contains_false|].
    eapply avoids_notin; [exact Hp | reflexivity]. }
  rewrite (split1_id (chr "#") rest) by done.
  assert (_checknetloc net = Returns ()) as Hcheck.
  { unfold _checknetloc. rewrite Hascii. by rewrite orb_true_r. }
  destruct q as [q|]; unfold rest, query_suffix.
  - rewrite (app_assoc (lit "/") p). change (lit "?" ++ q) with (63 :: q).
    rewrite (split1_app (chr "?")) by done. by rewrite Hcheck.
  - rewrite app_nil_r, (split1_id (chr "?")) by done. by rewrite Hcheck.
Qed.

Lemma urlparse_hier sch net p q :
  match sch with a :: _ => Str.is_ascii_alpha a | [] => false end = true →
  within scheme_chars sch = true →
  avoids (lit "/?#[]" ++ [9; 10; 13]) net = true →
  Str.isascii net = true →
  avoids (lit "?#;" ++ [9; 10; 13]) p = true →
  avoids (lit "#" ++ [9; 10; 13]) (default [] q) = true →
  urlparse (sch ++ lit "://" ++ net ++ lit "/" ++ p ++ query_suffix q) =
  Returns {| scheme := lower sch; netloc := net; path := lit "/" ++ p;
             params := []; query := default [] q; fragment := [] |}.
Proof.
  intros Ha Hsch Hnet Hascii Hp Hq. unfold urlparse.
  rewrite urlsplit_hier; try done;
    [| eapply avoids_weaken; [|exact Hp]; reflexivity].
  cbn [mbind outcome_bind path scheme netloc query fragment].
  assert (Str.contains (chr ";") (lit "/" ++ p) = false) as ->.
  { apply contains_false. rewrite not_elem_of_app.
    split; [by apply contains_false|].
    eapply avoids_notin; [exact Hp | reflexivity]. }
  by rewrite andb_false_r.
Qed.

(** The host of a network location without user information, port or
    brackets is the location in lower case. *)
Lemma hostname_plain parsed :
  netloc parsed ≠ [] →
  avoids (lit "@[:%") (netloc parsed) = true →
  Str.isascii (netloc parsed) = true →
  hostname parsed = Some (Str.ascii_lower (netloc parsed)).
Proof.
  intros Hne Hav Hascii. unfold hostname, _hostinfo.
  assert (∀ c, Str.contains c (lit "@[:%") = true → c ∉ netloc parsed)
    as Hnot by (intros c; by apply avoids_notin).
  unfold Str.rpartition. rewrite (proj2 (rfind_None _ _)) by by apply Hnot.
  cbn [snd]. unfold Str.partition.
  rewrite (proj2 (find_None (chr "[") _)) by by apply Hnot.
  rewrite (proj2 (find_None (chr ":") _)) by by apply Hnot.
  rewrite (bool_decide_true ([] = [])) by done. cbn [negb fst].
  rewrite (proj2 (find_None (chr "%") _)) by by apply Hnot.
  rewrite bool_decide_false by done.
  by rewrite ascii_lower_isascii, !app_nil_r.
Qed.

(** *** The dictionary of [parse_qs] *)

Lemma parse_qs_fold (pairs : list (str * str)) (m : gmap str (list str))
    (k : str) :
  foldl (λ (parsed_result : gmap str (list str)) '(name, value),
           match parsed_result !! name with
           | Some values => <[name := values ++ [value]]> parsed_result
           | None => <[name := [value]]> parsed_result
           end) m pairs !! k =
  match values_of k pairs with
  | [] => m !! k
  | vs => Some (default [] (m !! k) ++ vs)
  end.
Proof.
  revert m. induction pairs as [|[n v] pairs IH]; intros m; [done|].
  cbn [foldl]. rewrite IH. unfold values_of. cbn [omap list_omap fst snd].
  fold (values_of k pairs).
  assert (match m !! n with
          | Some values => <[n := values ++ [v]]> m
          | None => <[n := [v]]> m
          end = <[n := default [] (m !! n) ++ [v]]> m) as ->
    by by destruct (m !! n).
  case_bool_decide as Hn.
  - subst n. rewrite lookup_insert_eq.
    destruct (values_of k pairs); cbn [default]; [done|].
    unfold id. by rewrite <- app_assoc.
  - by rewrite lookup_insert_ne.
Qed.

Lemma parse_qs_lookup (qs name : str) :
  parse_qs qs !! name =
  match values_of name (parse_qsl qs) with
  | [] => None
  | vs => Some vs
  end.
Proof.
  unfold parse_qs. rewrite parse_qs_fold, lookup_empty.
  by destruct (values_of name (parse_qsl qs)).
Qed.

Lemma omap_omap {A B C} (f : A → option B) (g : B → option C)
    (l : list A) :
  omap g (omap f l) = omap (λ x, f x ≫= g) l.
Proof.
  induction l as [|x l IH]; [done|]. cbn [omap list_omap].
  destruct (f x) as [y|]; cbn [mbind option_bind omap list_omap];
    [destruct (g y)|]; by rewrite IH.
Qed.

Lemma parse_qsl_values (qs name : str) :
  values_of name (parse_qsl qs) = query_values name qs.
Proof.
  unfold values_of, parse_qsl, query_values.
  case_bool_decide as Hqs; [by subst qs|].
  rewrite omap_omap. apply list_omap_ext, Forall2_same_length_lookup.
  split; [done|]. intros i field ? Hf1 Hf2.
  assert (field = y) as <- by congruence. clear.
  unfold parse_field, form_decode.
  case_bool_decide as Hf; [by subst field|].
  destruct (Str.split1 (chr "=") field) as [|n [|v [|? ?]]]; try done.
  destruct (decide (v = [])) as [-> | Hv].
  - rewrite bool_decide_true by done. cbn [mbind option_bind].
    by rewrite bool_decide_false by (intros [_ ?]; done).
  - rewrite (bool_decide_false (v = [])) by done.
    cbn [mbind option_bind fst snd].
    destruct (decide (unquote (Str.replace (chr "+") (chr " ") n) = name))
      as [Hn | Hn].
    + by rewrite !bool_decide_true.
    + by rewrite !bool_decide_false by (try intros [? _]; done).
Qed.

End UrllibFacts.

Section ExtractFacts.

Context `{PyRuntime}.

Lemma extract_youtu_be X :
  avoids (lit "?#;" ++ [9; 10; 13]) X = true →
  extract_video_id (lit "https://youtu.be/" ++ X) = Returns (Some X).
Proof.
  intros HX. unfold extract_video_id.
  replace (lit "https://youtu.be/" ++ X)
    with (lit "https" ++ lit "://" ++ lit "youtu.be" ++ lit "/" ++ X ++
          query_suffix None)
    by (cbn [query_suffix]; by rewrite app_nil_r).
  rewrite urlparse_hier by done.
  cbn [mbind outcome_bind]. rewrite hostname_plain by done.
  cbn [netloc path]. by eval_in_tuple.
Qed.

Lemma split_app c p X :
  c ∉ p → Str.split c (p ++ c :: X) = p :: Str.split c X.
Proof.
  induction p as [|x p IH]; intros Hp; cbn [Str.split app].
  - by rewrite N.eqb_refl.
  - apply not_elem_of_cons in Hp as [Hc Hp].
    rewrite (proj2 (N.eqb_neq x c)) by done. by rewrite IH.
Qed.

Lemma split_segment p X :
  47 ∉ p → 47 ∉ X → Str.split (chr "/") (47 :: p ++ 47 :: X) = [[]; p; X].
Proof.
  intros Hp HX. change (47 :: p ++ 47 :: X) with ([] ++ 47 :: p ++ 47 :: X).
  rewrite (split_app (chr "/")) by apply not_elem_of_nil.
  by rewrite (split_app (chr "/")), split_id.
Qed.

Lemma extract_path_segment (host p X : str) :
  in_tuple (Some (Str.ascii_lower host)) [lit "youtu.be"; lit "www.youtu.be"]
    = false →
  in_tuple (Some (Str.ascii_lower host))
    [lit "youtube.com"; lit "www.youtube.com"] = true →
  avoids (lit "/?#[]@:%" ++ [9; 10; 13]) host = true →
  Str.isascii host = true →
  p = lit "embed" ∨ p = lit "v" →
  avoids (lit "/?#;" ++ [9; 10; 13]) X = true →
  extract_video_id (lit "https://" ++ host ++ lit "/" ++ p ++ lit "/" ++ X)
  = Returns (Some X).
Proof.
  intros Hh1 Hh2 Hhost Hascii Hp HX. unfold extract_video_id.
  assert (host ≠ []) as Hne by (intros ->; discriminate Hh2).
  replace (lit "https://" ++ host ++ lit "/" ++ p ++ lit "/" ++ X)
    with (lit "https" ++ lit "://" ++ host ++ lit "/" ++ (p ++ lit "/" ++ X)
          ++ query_suffix None)
    by (cbn [query_suffix]; by rewrite app_nil_r).
  assert (avoids (lit "?#;" ++ [9; 10; 13]) (p ++ lit "/" ++ X) = true) as HpX.
  { rewrite !avoids_app, !andb_true_iff. split_and!.
    - by destruct Hp as [-> | ->].
    - reflexivity.
    - eapply avoids_weaken; [|exact HX]. reflexivity. }
  rewrite urlparse_hier; try done;
    [| eapply avoids_weaken; [|exact Hhost]; reflexivity].
  cbn [mbind outcome_bind].
  rewrite hostname_plain; cbn [netloc path]; try done;
    [| eapply avoids_weaken; [|exact Hhost]; reflexivity].
  rewrite Hh1, Hh2.
  assert (47 ∉ X) as HX47
    by (eapply avoids_notin; [exact HX | reflexivity]).
  destruct Hp as [-> | ->].
  - rewrite bool_decide_false by (intros [= ?]; by destruct X).
    change (Str.startswith (lit "/embed/")
              (lit "/" ++ lit "embed" ++ lit "/" ++ X)) with true.
    cbv iota. change (lit "/" ++ lit "embed" ++ lit "/" ++ X)
      with (47 :: lit "embed" ++ 47 :: X).
    rewrite split_segment; [done | by apply contains_false | done].
  - rewrite bool_decide_false by (intros [= ?]).
    change (Str.startswith (lit "/embed/")
              (lit "/" ++ lit "v" ++ lit "/" ++ X)) with false.
    change (Str.startswith (lit "/v/")
              (lit "/" ++ lit "v" ++ lit "/" ++ X)) with true.
    cbv iota. change (lit "/" ++ lit "v" ++ lit "/" ++ X)
      with (47 :: lit "v" ++ 47 :: X).
    rewrite split_segment; [done | by apply contains_false | done].
Qed.

(** On the two short hosts the result is the whole path after its first
    character. *)
Lemma extract_short_host url parsed :
  urlparse url = Returns parsed →
  hostname parsed = Some (lit "youtu.be") ∨
  hostname parsed = Some (lit "www.youtu.be") →
  extract_video_id url = Returns (Some (drop 1 (path parsed))).
Proof.
  intros Hparse Hhost. unfold extract_video_id.
  rewrite Hparse. cbn [mbind outcome_bind].
  by destruct Hhost as [-> | ->].
Qed.

(** Without a parameter [v] the lookup in the dictionary fails. *)
Lemma extract_watch_without_v :
  extract_video_id (lit "https://www.youtube.com/watch")
  = Raises (KeyError (lit "v")).
Proof. vm_compute. reflexivity. Qed.

Lemma form_decode_id X :
  avoids (lit "%+") X = true → form_decode X = X.
Proof.
  intros HX. unfold form_decode, unquote.
  rewrite replace_id by (eapply avoids_notin; [exact HX | reflexivity]).
  assert (Str.contains (chr "%") X = false) as ->; [|done].
  apply contains_false. eapply avoids_notin; [exact HX | reflexivity].
Qed.

(** The values that [parse_qs] keeps are the non-empty ones among the
    values written in the query string, form-decoded and in order. *)
Lemma query_values_written name qs :
  query_values name qs
  = form_decode <$> filter (λ v, v ≠ []) (written_values name qs).
Proof.
  unfold query_values, written_values.
  induction (Str.split (chr "&") qs) as [|field fields IH]; [done|].
  cbn [omap list_omap]. rewrite IH.
  destruct (Str.split1 (chr "=") field) as [|n [|v [|? ?]]]; try done.
  destruct (decide (form_decode n = name)) as [Hn|Hn].
  - rewrite (bool_decide_true (form_decode n = name)) by done.
    destruct (decide (v = [])) as [Hv|Hv].
    + rewrite bool_decide_false by (intros [_ ?]; done).
      by rewrite filter_cons_False by (intros ?; done).
    + rewrite bool_decide_true by done.
      by rewrite filter_cons_True by done.
  - rewrite (bool_decide_false (form_decode n = name)) by done.
    by rewrite bool_decide_false by (intros [? _]; done).
Qed.

Lemma query_values_single X :
  X ≠ [] → avoids (lit "&%+") X = true →
  query_values (lit "v") (lit "v=" ++ X) = [X].
Proof.
  intros Hne HX. unfold query_values.
  rewrite split_id.
  - cbn [omap list_omap]. change (lit "v=" ++ X) with (lit "v" ++ 61 :: X).
    rewrite (split1_app (chr "=")) by by apply contains_false.
    rewrite bool_decide_true by done.
    rewrite form_decode_id; [done|].
    eapply avoids_weaken; [|exact HX]. reflexivity.
  - rewrite not_elem_of_app. split; [by apply contains_false|].
    eapply avoids_notin; [exact HX | reflexivity].
Qed.

Lemma extract_watch_parsed url parsed x xs :
  urlparse url = Returns parsed →
  hostname parsed = Some (lit "youtube.com") ∨
  hostname parsed = Some (lit "www.youtube.com") →
  path parsed = lit "/watch" →
  query_values (lit "v") (query parsed) = x :: xs →
  extract_video_id url = Returns (Some x).
Proof.
  intros Hparse Hhost Hpath Hq. unfold extract_video_id.
  rewrite Hparse. cbn [mbind outcome_bind].
  assert (in_tuple (hostname parsed) [lit "youtu.be"; lit "www.youtu.be"]
          = false) as -> by by destruct Hhost as [-> | ->].
  assert (in_tuple (hostname parsed)
            [lit "youtube.com"; lit "www.youtube.com"] = true) as ->
    by by destruct Hhost as [-> | ->].
  rewrite bool_decide_true by done.
  unfold dict_getitem. rewrite parse_qs_lookup, parse_qsl_values, Hq.
  reflexivity.
Qed.

Lemma extract_watch host X :
  host = lit "youtube.com" ∨ host = lit "www.youtube.com" →
  X ≠ [] →
  avoids (lit "#&%+" ++ [9; 10; 13]) X = true →
  extract_video_id (lit "https://" ++ host ++ lit "/watch?v=" ++ X)
  = Returns (Some X).
Proof.
  intros Hhost Hne HX.
  assert (urlparse (lit "https://" ++ host ++ lit "/watch?v=" ++ X) =
          Returns {| scheme := lit "https"; netloc := host;
                     path := lit "/watch"; params := [];
                     query := lit "v=" ++ X; fragment := [] |}) as Hparse.
  { change (lit "https://" ++ host ++ lit "/watch?v=" ++ X)
      with (lit "https" ++ lit "://" ++ host ++ lit "/" ++ lit "watch" ++
            query_suffix (Some (lit "v=" ++ X))).
    rewrite urlparse_hier; try by destruct Hhost as [-> | ->].
    change (default [] (Some (lit "v=" ++ X))) with (lit "v=" ++ X).
    rewrite avoids_app, andb_true_iff. split; [done|].
    eapply avoids_weaken; [|exact HX]. reflexivity. }
  eapply extract_watch_parsed; [exact Hparse | | done |].
  - destruct Hhost as [-> | ->]; [left | right]; by rewrite hostname_plain.
  - cbn [query]. apply query_values_single; [done|].
    eapply avoids_weaken; [|exact HX]. reflexivity.
Qed.

End ExtractFacts.

Section ProgramFacts.

Context `{PyRuntime}.
Variable segment : Type.
Implicit Types (svc : service (list segment)) (url id : str).

Lemma in_tuple_elem_of (h : option str) (hosts : list str) :
  in_tuple h hosts = true ↔ h ∈ Some <$> hosts.
Proof.
  destruct h as [h|]; cbn [in_tuple].
  - rewrite bool_decide_eq_true, list_elem_of_fmap. split.
    + intros Hin. by exists h.
    + by intros (? & [= <-] & ?).
  - split; [done|]. rewrite list_elem_of_fmap. by intros (? & ? & ?).
Qed.

(** What a run of [get_transcript] does, by the outcome of the
    extraction. *)
Lemma run_get_transcript svc url :
  run svc [] (get_transcript segment url) =
  match extract_video_id url with
  | Raises e => (Returns (failure_result (exn_str e)), [])
  | Returns None => (Returns invalid_url_result, [])
  | Returns (Some id) =>
      if bool_decide (id = []) then (Returns invalid_url_result, [])
      else
        (Returns match svc 0%nat id with
                 | Returns t => success_result t id
                 | Raises e => failure_result (exn_str e)
                 end,
         [(id, svc 0%nat id)])
  end.
Proof.
  unfold get_transcript.
  destruct (extract_video_id url) as [[id|]|e]; cbn; [|done..].
  case_bool_decide; cbn; [done|]. by destruct (svc 0%nat id).
Qed.

(** [get_transcript] returns a dictionary whatever happens. *)
Lemma get_transcript_returns svc url :
  ∃ d, (run svc [] (get_transcript segment url)).1 = Returns d.
Proof.
  rewrite run_get_transcript.
  destruct (extract_video_id url) as [[id|]|e]; [|by eexists..].
  case_bool_decide; by eexists.
Qed.

Lemma run_bind {A B} svc (m : Prog (list segment) A)
    (f : A → Prog (list segment) B) calls :
  run svc calls (m ≫= f) =
  match run svc calls m with
  | (Returns a, calls') => run svc calls' (f a)
  | (Raises e, calls') => (Raises e, calls')
  end.
Proof.
  revert calls. induction m as [a|e|id k IH]; intros calls; [done..|].
  cbn. apply IH.
Qed.

(** The script on one argument prints what [get_transcript] returns. *)
Lemma script_one_argument svc prog url d calls :
  run svc [] (get_transcript segment url) = (Returns d, calls) →
  script segment svc [prog; url] =
  ({| stdout := [d]; exit_code := 0 |}, calls).
Proof.
  intros Hrun. unfold script, main. cbn [length Nat.eqb negb].
  change (lift (list_index [prog; url] 1)) with (@Done (list segment) _ url).
  change (Done url ≫= ?f) with (f url). cbv beta.
  by rewrite run_bind, Hrun.
Qed.

(** With another number of arguments it prints the usage and stops. *)
Lemma script_usage svc argv :
  length argv ≠ 2%nat →
  script segment svc argv =
  ({| stdout := [usage_result]; exit_code := 1 |}, []).
Proof.
  intros Hlen. unfold script, main.
  by rewrite (proj2 (Nat.eqb_neq _ _) Hlen).
Qed.

End ProgramFacts.

(** * The claims *)

Section Claims.

Context `{PyRuntime}.
Variable segment : Type.
Implicit Types (svc : service (list segment)) (url id prog : str).

(** C1, amended. For every non-empty identifier [X] none of whose
    characters is one of [/ ? # ; & % +], a tab, a line feed or a carriage
    return, [extract_video_id] yields [X] on each of the four recognized
    shapes of URL. *)
Theorem extract_video_id_shapes (X : str) :
  X ≠ [] →
  unreserved X = true →
  extract_video_id (lit "https://www.youtube.com/watch?v=" ++ X)
    = Returns (Some X) ∧
  extract_video_id (lit "https://youtu.be/" ++ X) = Returns (Some X) ∧
  extract_video_id (lit "https://youtube.com/embed/" ++ X)
    = Returns (Some X) ∧
  extract_video_id (lit "https://youtube.com/v/" ++ X) = Returns (Some X).
Proof.
  intros Hne HX.
  assert (∀ chars, within reserved chars = true → avoids chars X = true)
    as Hav by (intros chars Hc; by eapply avoids_weaken).
  split_and!.
  - apply (extract_watch (lit "www.youtube.com")); auto.
  - apply extract_youtu_be; auto.
  - apply (extract_path_segment (lit "youtube.com") (lit "embed")); auto.
  - apply (extract_path_segment (lit "youtube.com") (lit "v")); auto.
Qed.

(** C2. On [https://www.youtube.com/watch], which has no [v] parameter,
    the lookup fails inside [extract_video_id], [get_transcript] handles
    it and returns a failure record without calling the service, and the
    script prints that record and exits with 0. *)
Theorem watch_without_v_is_handled svc prog :
  let url := lit "https://www.youtube.com/watch" in
  run svc [] (get_transcript segment url)
    = (Returns (failure_result (lit "'v'")), []) ∧
  script segment svc [prog; url]
    = ({| stdout := [failure_result (lit "'v'")]; exit_code := 0 |}, []).
Proof.
  intros url.
  assert (run svc [] (get_transcript segment url)
          = (Returns (failure_result (lit "'v'")), [])) as Hrun.
  { rewrite run_get_transcript.
    unfold url. by rewrite extract_watch_without_v. }
  split; [exact Hrun|]. by apply script_one_argument.
Qed.

(** C3. On [https://youtu.be/X/extra] the code returns [X/extra], the
    whole path after its first character, where the first path segment is
    [X]. *)
Theorem youtu_be_keeps_extra_segments :
  extract_video_id (lit "https://youtu.be/X/extra")
    = Returns (Some (lit "X/extra")) ∧
  list_index (Str.split (chr "/") (lit "/X/extra")) 1 = Returns (lit "X").
Proof. split; vm_compute; reflexivity. Qed.

(** C4. Whatever the URL, when the service raises the exception [e] in
    the course of [get_transcript], the result is the failure record that
    carries [str(e)]; nothing propagates, and the script prints that
    record and exits with 0. *)
Theorem service_error_becomes_failure svc prog url id (e : exn) :
  (id, Raises e) ∈ (run svc [] (get_transcript segment url)).2 →
  (run svc [] (get_transcript segment url)).1
    = Returns (failure_result (exn_str e)) ∧
  (script segment svc [prog; url]).1
    = {| stdout := [failure_result (exn_str e)]; exit_code := 0 |}.
Proof.
  intros Hin.
  assert (∃ calls, run svc [] (get_transcript segment url)
                   = (Returns (failure_result (exn_str e)), calls))
    as [calls Hrun].
  { revert Hin. rewrite run_get_transcript.
    destruct (extract_video_id url) as [[id'|]|e']; cbn [snd];
      try (intros Hin; by apply elem_of_nil in Hin).
    case_bool_decide; cbn [snd];
      [intros Hin; by apply elem_of_nil in Hin|].
    rewrite list_elem_of_singleton. intros [= <- Hsvc]. rewrite <- Hsvc.
    by eexists. }
  split; [by rewrite Hrun|].
  by rewrite (script_one_argument _ svc prog url _ calls Hrun).
Qed.

(** C5, amended. When [extract_video_id] yields a value, [get_transcript]
    calls the service exactly once, with that value, if it is a non-empty
    identifier, and not at all if it is none or the empty string; in that
    case it returns the invalid-URL record. *)
Theorem service_called_once_or_never svc url (video_id : option str) :
  extract_video_id url = Returns video_id →
  if falsy video_id
  then run svc [] (get_transcript segment url)
       = (Returns invalid_url_result, [])
  else ∃ id, video_id = Some id ∧
             (run svc [] (get_transcript segment url)).2
             = [(id, svc 0%nat id)].
Proof.
  intros Hex. rewrite run_get_transcript, Hex.
  destruct video_id as [id|]; cbn [falsy]; [|done].
  case_bool_decide; [done|]. by exists id.
Qed.

(** C6, amended. A URL that [urlparse] accepts, and that parses to a host
    other than the four known ones, or to [youtube.com] or
    [www.youtube.com] with a path that is not [/watch] and starts with
    neither [/embed/] nor [/v/], has no identifier: [extract_video_id]
    returns none, [get_transcript] returns the invalid-URL record without
    calling the service, and the script prints it and exits with 0.
    The first hypothesis is the amendment: a text that [urlparse] rejects
    has no host either, and gets another record. *)
Theorem unrecognized_url_is_invalid svc prog url (parsed : ParseResult) :
  urlparse url = Returns parsed →
  hostname parsed ∉ Some <$> (short_hosts ++ long_hosts) ∨
  (hostname parsed ∈ Some <$> long_hosts ∧
   path parsed ≠ lit "/watch" ∧
   Str.startswith (lit "/embed/") (path parsed) = false ∧
   Str.startswith (lit "/v/") (path parsed) = false) →
  extract_video_id url = Returns None ∧
  run svc [] (get_transcript segment url)
    = (Returns invalid_url_result, []) ∧
  script segment svc [prog; url]
    = ({| stdout := [invalid_url_result]; exit_code := 0 |}, []).
Proof.
  intros Hparse Hcases.
  assert (extract_video_id url = Returns None) as Hex.
  { unfold extract_video_id. rewrite Hparse. cbn [mbind outcome_bind].
    fold short_hosts long_hosts.
    destruct Hcases as [Hhost | (Hhost & Hpath & Hembed & Hv)].
    - rewrite fmap_app, not_elem_of_app, <- !in_tuple_elem_of in Hhost.
      destruct Hhost as [Hs Hl].
      by rewrite (not_true_is_false _ Hs), (not_true_is_false _ Hl).
    - assert (in_tuple (hostname parsed) short_hosts = false) as ->.
      { apply not_true_is_false. rewrite in_tuple_elem_of. intros Hs.
        revert Hhost Hs. generalize (hostname parsed). intros h.
        rewrite !list_elem_of_fmap.
        intros (a & -> & Ha) (b & [= ->] & Hb). revert Ha Hb.
        unfold long_hosts, short_hosts.
        rewrite !elem_of_cons, !elem_of_nil. intros [-> | [-> | []]].
        all: intros [Hb | [Hb | []]]; discriminate Hb. }
      rewrite (proj2 (in_tuple_elem_of _ _) Hhost).
      rewrite bool_decide_false by done. by rewrite Hembed, Hv. }
  assert (run svc [] (get_transcript segment url)
          = (Returns invalid_url_result, [])) as Hrun
    by by rewrite run_get_transcript, Hex.
  split_and!; [done..|]. by apply script_one_argument.
Qed.


(** C8. With a number of arguments other than one the script prints the
    usage record, calls nothing and exits with 1; with exactly one
    argument it prints a single record and exits with 0. *)
Theorem usage_or_single_record svc (argv : list str) :
  (length argv ≠ 2%nat →
   script segment svc argv
   = ({| stdout := [usage_result]; exit_code := 1 |}, [])) ∧
  (length argv = 2%nat →
   ∃ d, (script segment svc argv).1 = {| stdout := [d]; exit_code := 0 |}).
Proof.
  split; [apply script_usage|]. intros Hlen.
  destruct argv as [|prog [|url [|]]]; try discriminate Hlen.
  destruct (get_transcript_returns segment svc url) as [d Hd].
  exists d.
  destruct (run svc [] (get_transcript segment url)) as [o calls] eqn:Hrun.
  cbn [fst] in Hd. subst o.
  by rewrite (script_one_argument _ svc prog url d calls Hrun).
Qed.

(** C9. A URL whose extracted identifier is the empty string is treated
    as one without identifier: [get_transcript] returns the invalid-URL
    record and does not call the service. *)
Theorem empty_identifier_is_invalid svc prog url :
  extract_video_id url = Returns (Some []) →
  run svc [] (get_transcript segment url)
    = (Returns invalid_url_result, []) ∧
  script segment svc [prog; url]
    = ({| stdout := [invalid_url_result]; exit_code := 0 |}, []).
Proof.
  intros Hex.
  assert (run svc [] (get_transcript segment url)
          = (Returns invalid_url_result, [])) as Hrun
    by by rewrite run_get_transcript, Hex.
  split; [exact Hrun|]. by apply script_one_argument.
Qed.

(** C10, amended. On a URL that parses to the host [youtube.com] or
    [www.youtube.com] and the path [/watch], when the query string gives
    the parameter [v] at least one non-empty value, [extract_video_id]
    returns the first non-empty value of [v], form-decoded: the empty
    values of [v] are passed over, [query_values] being the non-empty
    ones among the [written_values]. *)
Theorem watch_returns_first_value url (parsed : ParseResult)
    (x : str) (xs : list str) :
  urlparse url = Returns parsed →
  hostname parsed ∈ Some <$> long_hosts →
  path parsed = lit "/watch" →
  query_values (lit "v") (query parsed) = x :: xs →
  extract_video_id url = Returns (Some x).
Proof.
  intros Hparse Hhost Hpath Hq.
  eapply extract_watch_parsed; [exact Hparse | | exact Hpath | exact Hq].
  revert Hhost. unfold long_hosts. rewrite list_elem_of_fmap.
  intros (h & -> & Hh). revert Hh. rewrite !elem_of_cons, elem_of_nil.
  intros [-> | [-> | []]]; auto.
Qed.

End Claims.

(** * Instances of the claims *)

(** C1 as stated fails: [a#b] is non-empty and has neither ['/'] nor
    ['?'], and the extraction stops at the ['#']. *)
Lemma fragment_cuts_identifier :
  let X := lit "a#b" in
  X ≠ [] ∧
  Str.contains (chr "/") X = false ∧
  Str.contains (chr "?") X = false ∧
  (∀ R : PyRuntime,
     @extract_video_id R (lit "https://youtu.be/" ++ X)
     = Returns (Some (lit "a"))) ∧
  lit "a" ≠ X.
Proof.
  split_and!; [done | reflexivity | reflexivity | | done].
  intros R. vm_compute. reflexivity.
Qed.

(** Each character that the amended C1 excludes changes the result on one
    of the shapes. *)
Lemma reserved_characters_matter (R : PyRuntime) :
  extract_video_id (lit "https://youtube.com/embed/a;b")
    = Returns (Some (lit "a")) ∧
  extract_video_id (lit "https://www.youtube.com/watch?v=a&b")
    = Returns (Some (lit "a")) ∧
  extract_video_id (lit "https://www.youtube.com/watch?v=a+b")
    = Returns (Some (lit "a b")) ∧
  extract_video_id (lit "https://www.youtube.com/watch?v=a%62")
    = Returns (Some (lit "ab")) ∧
  extract_video_id (lit "https://youtu.be/a" ++ [9] ++ lit "b")
    = Returns (Some (lit "ab")) ∧
  extract_video_id (lit "https://youtu.be/a" ++ [10] ++ lit "b")
    = Returns (Some (lit "ab")) ∧
  extract_video_id (lit "https://youtu.be/a" ++ [13] ++ lit "b")
    = Returns (Some (lit "ab")).
Proof. split_and!; vm_compute; reflexivity. Qed.

Lemma extract_video_id_shapes_witness :
  let X := lit "abc123" in
  X ≠ [] ∧ unreserved X = true ∧
  @extract_video_id sample_runtime (lit "https://www.youtube.com/watch?v=abc123")
    = Returns (Some X) ∧
  @extract_video_id sample_runtime (lit "https://youtu.be/abc123")
    = Returns (Some X) ∧
  @extract_video_id sample_runtime (lit "https://youtube.com/embed/abc123")
    = Returns (Some X) ∧
  @extract_video_id sample_runtime (lit "https://youtube.com/v/abc123")
    = Returns (Some X).
Proof.
  split; [done|]. split; [reflexivity|].
  apply (@extract_video_id_shapes sample_runtime (lit "abc123"));
    [done | reflexivity].
Defined.

Lemma service_error_becomes_failure_witness :
  let url := lit "https://youtu.be/abc123" in
  let e := Exception (lit "Could not retrieve a transcript") in
  (run failing_service [] (@get_transcript sample_runtime caption url)).1
    = Returns (failure_result (exn_str e)) ∧
  (@script sample_runtime caption failing_service
     [lit "get_transcript.py"; url]).1
    = {| stdout := [failure_result (exn_str e)]; exit_code := 0 |}.
Proof.
  apply (@service_error_becomes_failure sample_runtime caption failing_service
           (lit "get_transcript.py") (lit "https://youtu.be/abc123")
           (lit "abc123")).
  vm_compute. apply list_elem_of_here.
Defined.

(** C5 as stated fails: from [https://youtu.be/] an identifier is
    extracted, the empty string and not none, and the service is not
    called. *)
Lemma empty_identifier_is_never_fetched :
  let url := lit "https://youtu.be/" in
  @extract_video_id sample_runtime url = Returns (Some []) ∧
  @extract_video_id sample_runtime url ≠ Returns None ∧
  length (run sample_service [] (@get_transcript sample_runtime caption url)).2
    = 0%nat.
Proof. split_and!; [| discriminate |]; vm_compute; reflexivity. Qed.

Lemma service_called_once_or_never_witness :
  (∃ id, Some (lit "abc123") = Some id ∧
     (run sample_service []
        (@get_transcript sample_runtime caption
           (lit "https://youtu.be/abc123"))).2
     = [(id, sample_service 0%nat id)]) ∧
  run sample_service []
    (@get_transcript sample_runtime caption (lit "https://vimeo.com/123"))
  = (Returns invalid_url_result, []).
Proof.
  split.
  - apply (@service_called_once_or_never sample_runtime caption sample_service
             (lit "https://youtu.be/abc123") (Some (lit "abc123"))).
    vm_compute. reflexivity.
  - apply (@service_called_once_or_never sample_runtime caption sample_service
             (lit "https://vimeo.com/123") None).
    vm_compute. reflexivity.
Defined.

Lemma unrecognized_url_is_invalid_witness :
  let url := lit "https://vimeo.com/123" in
  @extract_video_id sample_runtime url = Returns None ∧
  run sample_service [] (@get_transcript sample_runtime caption url)
    = (Returns invalid_url_result, []) ∧
  @script sample_runtime caption sample_service
     [lit "get_transcript.py"; url]
    = ({| stdout := [invalid_url_result]; exit_code := 0 |}, []).
Proof.
  apply (@unrecognized_url_is_invalid sample_runtime caption sample_service
           (lit "get_transcript.py") (lit "https://vimeo.com/123")
           {| scheme := lit "https"; netloc := lit "vimeo.com";
              path := lit "/123"; params := []; query := [];
              fragment := [] |}).
  - vm_compute. reflexivity.
  - left. apply (proj1 (not_iff_compat (in_tuple_elem_of _ _))).
    vm_compute. discriminate.
Defined.

(** C6 as stated fails: [urlparse] rejects [https://[vimeo.com/123], so
    the text has no host, a fortiori none of the four known ones; yet
    [extract_video_id] raises instead of returning none, and
    [get_transcript] returns the record of the handler, not the
    invalid-URL record. *)
Lemma rejected_url_is_not_invalid :
  let url := lit "https://[vimeo.com/123" in
  let msg := lit "Invalid IPv6 URL" in
  (∀ R : PyRuntime,
     ¬ (@url_host R url ∈ (Some <$> (short_hosts ++ long_hosts))) ∧
     @extract_video_id R url = Raises (ValueError msg) ∧
     @extract_video_id R url ≠ Returns None ∧
     run sample_service [] (@get_transcript R caption url)
       = (Returns (failure_result msg), []) ∧
     run sample_service [] (@get_transcript R caption url)
       ≠ (Returns invalid_url_result, [])) ∧
  @failure_result (list caption) msg ≠ invalid_url_result.
Proof.
  split; [|discriminate]. intros R.
  assert (@extract_video_id R (lit "https://[vimeo.com/123")
          = Raises (ValueError (lit "Invalid IPv6 URL"))) as Hex
    by (vm_compute; reflexivity).
  assert (run sample_service []
            (@get_transcript R caption (lit "https://[vimeo.com/123"))
          = (Returns (failure_result (lit "Invalid IPv6 URL")), [])) as Hrun
    by (vm_compute; reflexivity).
  split_and!.
  - apply (bool_decide_unpack _). vm_compute. exact I.
  - exact Hex.
  - rewrite Hex. discriminate.
  - exact Hrun.
  - rewrite Hrun. discriminate.
Qed.


Lemma usage_or_single_record_witness :
  @script sample_runtime caption sample_service [lit "get_transcript.py"]
    = ({| stdout := [usage_result]; exit_code := 1 |}, []) ∧
  ∃ d, (@script sample_runtime caption sample_service
          [lit "get_transcript.py"; lit "not a url"]).1
       = {| stdout := [d]; exit_code := 0 |}.
Proof.
  split.
  - apply (@usage_or_single_record sample_runtime caption sample_service
             [lit "get_transcript.py"]). discriminate.
  - apply (@usage_or_single_record sample_runtime caption sample_service
             [lit "get_transcript.py"; lit "not a url"]). reflexivity.
Defined.

Lemma empty_identifier_is_invalid_witness :
  (run sample_service []
     (@get_transcript sample_runtime caption (lit "https://youtu.be/"))
   = (Returns invalid_url_result, []) ∧
   @script sample_runtime caption sample_service
      [lit "get_transcript.py"; lit "https://youtu.be/"]
   = ({| stdout := [invalid_url_result]; exit_code := 0 |}, [])) ∧
  (run sample_service []
     (@get_transcript sample_runtime caption
        (lit "https://youtube.com/embed//x"))
   = (Returns invalid_url_result, []) ∧
   @script sample_runtime caption sample_service
      [lit "get_transcript.py"; lit "https://youtube.com/embed//x"]
   = ({| stdout := [invalid_url_result]; exit_code := 0 |}, [])).
Proof.
  split.
  - apply (@empty_identifier_is_invalid sample_runtime caption sample_service
             (lit "get_transcript.py") (lit "https://youtu.be/")).
    vm_compute. reflexivity.
  - apply (@empty_identifier_is_invalid sample_runtime caption sample_service
             (lit "get_transcript.py") (lit "https://youtube.com/embed//x")).
    vm_compute. reflexivity.
Defined.

(** C10 as stated fails: in [https://www.youtube.com/watch?v=&v=Y] the
    parameter [v] has the two values [''] and ['Y'], one of them
    non-empty; its first value is the empty one, and [extract_video_id]
    returns ['Y']. *)
Lemma empty_first_value_is_skipped :
  let url := lit "https://www.youtube.com/watch?v=&v=Y" in
  let parsed := {| scheme := lit "https"; netloc := lit "www.youtube.com";
                   path := lit "/watch"; params := [];
                   query := lit "v=&v=Y"; fragment := [] |} in
  (∀ R : PyRuntime,
     @urlparse R url = Returns parsed ∧
     @hostname R parsed = Some (lit "www.youtube.com") ∧
     @written_values R (lit "v") (query parsed) = [[]; lit "Y"] ∧
     head (@written_values R (lit "v") (query parsed)) = Some [] ∧
     @extract_video_id R url = Returns (Some (lit "Y")) ∧
     @extract_video_id R url ≠ Returns (Some [])) ∧
  lit "Y" ≠ [].
Proof.
  split; [|discriminate]. intros R.
  assert (@extract_video_id R (lit "https://www.youtube.com/watch?v=&v=Y")
          = Returns (Some (lit "Y"))) as Hex
    by (vm_compute; reflexivity).
  split_and!.
  - vm_compute. reflexivity.
  - vm_compute. reflexivity.
  - vm_compute. reflexivity.
  - vm_compute. reflexivity.
  - exact Hex.
  - rewrite Hex. discriminate.
Qed.

Lemma watch_returns_first_value_witness :
  @extract_video_id sample_runtime
    (lit "https://www.youtube.com/watch?v=X&v=Y") = Returns (Some (lit "X")).
Proof.
  apply (@watch_returns_first_value sample_runtime
           (lit "https://www.youtube.com/watch?v=X&v=Y")
           {| scheme := lit "https"; netloc := lit "www.youtube.com";
              path := lit "/watch"; params := []; query := lit "v=X&v=Y";
              fragment := [] |} (lit "X") [lit "Y"]).
  - vm_compute. reflexivity.
  - apply in_tuple_elem_of. vm_compute. reflexivity.
  - reflexivity.
  - vm_compute. reflexivity.
Defined.

(** * Further properties of [extract_video_id] *)

Section ExtractErrors.

Context `{PyRuntime}.

Lemma _check_bracketed_host_raises h e :
  _check_bracketed_host h = Raises e → ∃ msg, e = ValueError msg.
Proof.
  unfold _check_bracketed_host. repeat case_match; intros [= <-]; eauto.
Qed.

Lemma _check_bracketed_netloc_raises n e :
  _check_bracketed_netloc n = Raises e → ∃ msg, e = ValueError msg.
Proof.
  unfold _check_bracketed_netloc. repeat case_match;
    try (intros [= <-]; eauto); apply _check_bracketed_host_raises.
Qed.

Lemma _checknetloc_raises n e :
  _checknetloc n = Raises e → ∃ msg, e = ValueError msg.
Proof.
  unfold _checknetloc. repeat case_match; intros [= <-]; eauto.
Qed.

Lemma urlsplit_raises url e :
  urlsplit url = Raises e → ∃ msg, e = ValueError msg.
Proof.
  unfold urlsplit, mbind, outcome_bind.
  repeat case_match; simplify_eq; try discriminate;
    intros [= <-];
    eauto using _check_bracketed_netloc_raises, _checknetloc_raises.
Qed.

Lemma urlparse_raises url e :
  urlparse url = Raises e → ∃ msg, e = ValueError msg.
Proof.
  unfold urlparse, mbind, outcome_bind.
  destruct (urlsplit url) as [r|e'] eqn:Hsplit.
  - by repeat case_match.
  - intros [= <-]. by eapply urlsplit_raises.
Qed.

Lemma split_nonempty c s : Str.split c s ≠ [].
Proof.
  destruct s as [|x s]; [done|]. cbn [Str.split].
  destruct (x =? c); [done|]. by destruct (Str.split c s).
Qed.

(** No field of [s.split(c)] contains [c]. *)
Lemma split_fields c s field : field ∈ Str.split c s → c ∉ field.
Proof.
  revert field. induction s as [|x s IH]; intros field; cbn [Str.split].
  - rewrite list_elem_of_singleton. intros ->. apply not_elem_of_nil.
  - destruct (N.eqb_spec x c) as [-> | Hx].
    + rewrite elem_of_cons. intros [-> | Hin];
        [apply not_elem_of_nil | by apply IH].
    + destruct (Str.split c s) as [|f fs] eqn:Hsplit;
        [by apply split_nonempty in Hsplit|].
      rewrite elem_of_cons. intros [-> | Hin].
      * rewrite not_elem_of_cons. split; [done|].
        apply IH, list_elem_of_here.
      * by apply IH, list_elem_of_further.
Qed.

Lemma startswith_app p s :
  Str.startswith p s = true → ∃ t, s = p ++ t.
Proof.
  revert s. induction p as [|a p IH]; intros s; [by exists s|].
  destruct s as [|b s]; [done|]. cbn [Str.startswith].
  rewrite andb_true_iff, N.eqb_eq. intros [-> Hp].
  destruct (IH s Hp) as [t ->]. by exists t.
Qed.

(** Under the test on its prefix, the path has a third field. *)
Lemma third_field_exists p path :
  47 ∉ p →
  Str.startswith (47 :: p ++ [47]) path = true →
  ∃ segment, list_index (Str.split (chr "/") path) 2 = Returns segment ∧
             47 ∉ segment.
Proof.
  intros Hp Hpath. apply startswith_app in Hpath as [t ->].
  change ((47 :: p ++ [47]) ++ t) with ([] ++ 47 :: (p ++ [47]) ++ t).
  rewrite (split_app (chr "/")) by apply not_elem_of_nil.
  rewrite <- app_assoc. change ([47] ++ t) with (47 :: t).
  rewrite (split_app (chr "/")) by done.
  unfold list_index. cbn [lookup list_lookup].
  destruct (Str.split (chr "/") t) as [|segment fields] eqn:Hsplit;
    [by apply split_nonempty in Hsplit|].
  exists segment. split; [done|].
  apply (split_fields (chr "/") t). rewrite Hsplit. apply list_elem_of_here.
Qed.

Lemma in_tuple_long (h : option str) :
  in_tuple h [lit "youtube.com"; lit "www.youtube.com"] = true ↔
  h ∈ Some <$> long_hosts.
Proof.
  destruct h as [h|]; cbn [in_tuple].
  - rewrite bool_decide_eq_true, list_elem_of_fmap. split.
    + intros Hin. by exists h.
    + by intros (? & [= <-] & ?).
  - split; [done|]. rewrite list_elem_of_fmap. by intros (? & ? & ?).
Qed.

Lemma long_not_short (h : option str) :
  h ∈ Some <$> long_hosts →
  in_tuple h [lit "youtu.be"; lit "www.youtu.be"] = false.
Proof.
  rewrite list_elem_of_fmap. intros (a & -> & Ha). revert Ha.
  unfold long_hosts. rewrite !elem_of_cons, elem_of_nil.
  by intros [-> | [-> | []]].
Qed.

(** X1. [extract_video_id] raises in two ways only: the [ValueError] with
    which [urlparse] rejects the text, or [KeyError('v')] on a [/watch]
    URL of [youtube.com] whose query gives [v] no value. Indexing the
    fields of the path or the values of [v] never fails. *)
Theorem extract_video_id_raises url (e : exn) :
  extract_video_id url = Raises e →
  (urlparse url = Raises e ∧ ∃ msg, e = ValueError msg) ∨
  (e = KeyError (lit "v") ∧
   ∃ parsed, urlparse url = Returns parsed ∧
             hostname parsed ∈ Some <$> long_hosts ∧
             path parsed = lit "/watch" ∧
             query_values (lit "v") (query parsed) = []).
Proof.
  unfold extract_video_id.
  destruct (urlparse url) as [parsed|e'] eqn:Hparse; cbn [mbind outcome_bind].
  2: { intros [= <-]. left. split; [done|]. by eapply urlparse_raises. }
  destruct (in_tuple (hostname parsed) [lit "youtu.be"; lit "www.youtu.be"]);
    [done|].
  destruct (in_tuple (hostname parsed) _) eqn:Hlong; [|done].
  apply in_tuple_long in Hlong.
  case_bool_decide as Hpath.
  - unfold dict_getitem. rewrite parse_qs_lookup, parse_qsl_values.
    destruct (query_values (lit "v") (query parsed)) as [|x xs] eqn:Hq;
      [|done].
    intros [= <-]. right. split; [done|]. by exists parsed.
  - destruct (Str.startswith (lit "/embed/") (path parsed)) eqn:Hembed.
    { destruct (third_field_exists (lit "embed") (path parsed))
        as (segment & -> & _); [by apply contains_false | done | done]. }
    destruct (Str.startswith (lit "/v/") (path parsed)) eqn:Hv; [|done].
    destruct (third_field_exists (lit "v") (path parsed))
      as (segment & -> & _); [by apply contains_false | done | done].
Qed.

(** X2. On a [/watch] URL of [youtube.com] or [www.youtube.com] whose
    query string gives [v] no non-empty value, [extract_video_id] raises
    [KeyError('v')]. *)
Theorem watch_without_value_raises url (parsed : ParseResult) :
  urlparse url = Returns parsed →
  hostname parsed ∈ Some <$> long_hosts →
  path parsed = lit "/watch" →
  query_values (lit "v") (query parsed) = [] →
  extract_video_id url = Raises (KeyError (lit "v")).
Proof.
  intros Hparse Hhost Hpath Hq. unfold extract_video_id.
  rewrite Hparse. cbn [mbind outcome_bind].
  rewrite (long_not_short _ Hhost), (proj2 (in_tuple_long _) Hhost).
  rewrite bool_decide_true by done.
  unfold dict_getitem. by rewrite parse_qs_lookup, parse_qsl_values, Hq.
Qed.

(** X3. An identifier that [extract_video_id] takes from a path of
    [youtube.com] or [www.youtube.com], the [/embed/] and [/v/] shapes, is
    one path segment: it never contains a ['/']. *)
Theorem path_identifier_has_no_slash url (parsed : ParseResult) (id : str) :
  urlparse url = Returns parsed →
  hostname parsed ∈ Some <$> long_hosts →
  path parsed ≠ lit "/watch" →
  extract_video_id url = Returns (Some id) →
  chr "/" ∉ id.
Proof.
  intros Hparse Hhost Hpath. unfold extract_video_id.
  rewrite Hparse. cbn [mbind outcome_bind].
  rewrite (long_not_short _ Hhost), (proj2 (in_tuple_long _) Hhost).
  rewrite bool_decide_false by done.
  destruct (Str.startswith (lit "/embed/") (path parsed)) eqn:Hembed.
  { destruct (third_field_exists (lit "embed") (path parsed))
      as (segment & -> & Hseg); [by apply contains_false | done |].
    by intros [= <-]. }
  destruct (Str.startswith (lit "/v/") (path parsed)) eqn:Hv; [|done].
  destruct (third_field_exists (lit "v") (path parsed))
    as (segment & -> & Hseg); [by apply contains_false | done |].
  by intros [= <-].
Qed.

End ExtractErrors.

(** * URLs in their general form *)

Section UrlText.

Context `{PyRuntime}.

Lemma rfind_app c (s t : str) :
  c ∉ t → Str.rfind c (s ++ c :: t) = Some (length s).
Proof.
  intros Ht. induction s as [|x s IH]; cbn [app Str.rfind length].
  - by rewrite (proj2 (rfind_None c t)), N.eqb_refl.
  - by rewrite IH.
Qed.

Lemma ascii_lower_avoids (chars s : str) :
  forallb (λ c, negb (Str.is_upper c)) chars = true →
  avoids chars (Str.ascii_lower s) = true →
  avoids chars s = true.
Proof.
  intros Hchars. unfold avoids, Str.ascii_lower.
  rewrite !forallb_forall. intros Hs x Hx.
  destruct (Str.is_upper x) eqn:Hup.
  - apply negb_true_iff, contains_false. intros Hin.
    rewrite forallb_forall in Hchars.
    apply list_elem_of_In, Hchars in Hin. by rewrite Hup in Hin.
  - apply (Hs x). apply list_elem_of_In, list_elem_of_fmap.
    exists x. rewrite Hup. split; [done | by apply list_elem_of_In].
Qed.

Lemma ascii_lower_isascii_inv (s : str) :
  Str.isascii (Str.ascii_lower s) = true → Str.isascii s = true.
Proof.
  unfold Str.isascii, Str.ascii_lower. rewrite !forallb_forall.
  intros Hs x Hx. destruct (Str.is_upper x) eqn:Hup.
  - unfold Str.is_upper in Hup. apply andb_true_iff in Hup as [_ Hup].
    apply N.leb_le in Hup. apply N.ltb_lt. lia.
  - apply (Hs x). apply list_elem_of_In, list_elem_of_fmap.
    exists x. rewrite Hup. split; [done | by apply list_elem_of_In].
Qed.

Lemma urlsplit_text sch net p q f :
  scheme_ok sch = true →
  avoids (lit "/?#[]" ++ unsafe) net = true →
  Str.isascii net = true →
  avoids (lit "?#" ++ unsafe) p = true →
  avoids (lit "#" ++ unsafe) (default [] q) = true →
  avoids unsafe (default [] f) = true →
  urlsplit (sch ++ lit "://" ++ net ++ lit "/" ++ p ++ query_suffix q ++
            fragment_suffix f) =
  Returns {| scheme := lower sch; netloc := net; path := lit "/" ++ p;
             params := []; query := default [] q;
             fragment := default [] f |}.
Proof.
  unfold scheme_ok. rewrite andb_true_iff.
  intros [Ha Hsch] Hnet Hascii Hp Hq Hf. unfold urlsplit.
  destruct sch as [|a sch']; [done|].
  set (pq := lit "/" ++ p ++ query_suffix q).
  assert (avoids unsafe pq = true) as Hpq.
  { unfold pq. rewrite !avoids_app, !andb_true_iff. split_and!.
    - reflexivity.
    - eapply avoids_weaken; [|exact Hp]. reflexivity.
    - destruct q as [q|]; [|done]. unfold query_suffix.
      rewrite avoids_app, andb_true_iff. split; [reflexivity|].
      eapply avoids_weaken; [|exact Hq]. reflexivity. }
  assert (35 ∉ pq) as H35.
  { unfold pq. rewrite !not_elem_of_app. split_and!.
    - by apply contains_false.
    - eapply avoids_notin; [exact Hp | reflexivity].
    - destruct q as [q|]; [|apply not_elem_of_nil]. unfold query_suffix.
      rewrite not_elem_of_app. split; [by apply contains_false|].
      eapply avoids_notin; [exact Hq | reflexivity]. }
  replace (lit "/" ++ p ++ query_suffix q ++ fragment_suffix f)
    with (pq ++ fragment_suffix f)
    by (unfold pq; by rewrite <- !app_assoc).
  set (rest := pq ++ fragment_suffix f).
  assert (avoids unsafe rest = true) as Hrest.
  { unfold rest. rewrite avoids_app, Hpq. destruct f as [f|]; [|done].
    unfold fragment_suffix. rewrite avoids_app.
    change (default [] (Some f)) with f in Hf. by rewrite Hf. }
  assert (avoids unsafe ((a :: sch') ++ lit "://" ++ net ++ rest) = true)
    as Hurl.
  { rewrite !avoids_app, !andb_true_iff. split_and!; [| reflexivity | | done].
    - eapply within_avoids; [exact Hsch | reflexivity].
    - eapply avoids_weaken; [|exact Hnet]. reflexivity. }
  change ((a :: sch') ++ lit "://" ++ net ++ rest)
    with (a :: sch' ++ lit "://" ++ net ++ rest) in *.
  rewrite lstrip_alpha, remove_unsafe_id by done.
  assert (Str.find (chr ":") (a :: sch' ++ lit "://" ++ net ++ rest)
          = Some (S (length sch'))) as ->.
  { change (Str.find (chr ":") ((a :: sch') ++ 58 :: lit "//" ++ net ++ rest)
            = Some (S (length sch'))).
    rewrite find_app, (proj2 (find_None _ _)).
    - simpl. f_equal. lia.
    - eapply within_notin; [exact Hsch | reflexivity]. }
  assert (take (S (length sch')) (a :: sch' ++ lit "://" ++ net ++ rest)
          = a :: sch') as -> by apply (take_app_length (a :: sch')).
  assert (drop (S (S (length sch'))) (a :: sch' ++ lit "://" ++ net ++ rest)
          = lit "//" ++ net ++ rest) as ->.
  { change (drop (S (length sch')) (sch' ++ [58] ++ lit "//" ++ net ++ rest)
            = lit "//" ++ net ++ rest).
    rewrite app_assoc. apply drop_app_length'. rewrite length_app. simpl. lia. }
  fold (within scheme_chars (a :: sch')). rewrite Ha, Hsch. cbn [andb].
  rewrite (bool_decide_true (take 2 (lit "//" ++ net ++ rest) = lit "//"))
    by done.
  rewrite _splitnetloc_spec; [| by eapply avoids_weaken; [|exact Hnet] | done].
  assert (Str.contains (chr "[") net = false) as ->
    by (apply contains_false; eapply avoids_notin; [exact Hnet|reflexivity]).
  assert (Str.contains (chr "]") net = false) as ->
    by (apply contains_false; eapply avoids_notin; [exact Hnet|reflexivity]).
  cbn [andb orb negb mbind outcome_bind].
  assert (63 ∉ lit "/" ++ p) as H63.
  { rewrite not_elem_of_app. split; [by apply contains_false|].
    eapply avoids_notin; [exact Hp | reflexivity]. }
  assert (_checknetloc net = Returns ()) as Hcheck.
  { unfold _checknetloc. rewrite Hascii. by rewrite orb_true_r. }
  assert (Str.split1 (chr "#") rest = match f with
                                      | Some f => [pq; f]
                                      | None => [rest]
                                      end) as ->.
  { unfold rest. destruct f as [f|]; unfold fragment_suffix.
    - by apply (split1_app (chr "#")).
    - rewrite app_nil_r. by apply split1_id. }
  assert (Str.split1 (chr "?") pq = match q with
                                    | Some q => [lit "/" ++ p; q]
                                    | None => [pq]
                                    end) as Hsplit.
  { unfold pq. destruct q as [q|]; unfold query_suffix.
    - rewrite (app_assoc (lit "/") p). by apply (split1_app (chr "?")).
    - rewrite app_nil_r. by apply split1_id. }
  destruct f as [f|].
  - rewrite Hsplit, Hcheck. destruct q as [q|]; [done|].
    unfold pq, query_suffix. by rewrite app_nil_r.
  - unfold rest, fragment_suffix. rewrite app_nil_r, Hsplit, Hcheck.
    destruct q as [q|]; [done|].
    unfold pq, query_suffix. by rewrite app_nil_r.
Qed.

Lemma urlparse_text sch net p q f :
  scheme_ok sch = true →
  avoids (lit "/?#[]" ++ unsafe) net = true →
  Str.isascii net = true →
  avoids (lit "?#;" ++ unsafe) p = true →
  avoids (lit "#" ++ unsafe) (default [] q) = true →
  avoids unsafe (default [] f) = true →
  urlparse (sch ++ lit "://" ++ net ++ lit "/" ++ p ++ query_suffix q ++
            fragment_suffix f) =
  Returns {| scheme := lower sch; netloc := net; path := lit "/" ++ p;
             params := []; query := default [] q;
             fragment := default [] f |}.
Proof.
  intros Hsch Hnet Hascii Hp Hq Hf. unfold urlparse.
  rewrite urlsplit_text; try done;
    [| eapply avoids_weaken; [|exact Hp]; reflexivity].
  cbn [mbind outcome_bind path scheme netloc query fragment].
  assert (Str.contains (chr ";") (lit "/" ++ p) = false) as ->.
  { apply contains_false. rewrite not_elem_of_app.
    split; [by apply contains_false|].
    eapply avoids_notin; [exact Hp | reflexivity]. }
  by rewrite andb_false_r.
Qed.

(** The host of [user@host:port] is [host] in lower case. *)
Lemma _hostinfo_authority user host port :
  avoids (lit "@[:") host = true →
  port_ok port = true →
  (_hostinfo (authority user host port)).1 = host.
Proof.
  intros Hhost Hport. unfold _hostinfo, authority.
  set (hp := host ++ match port with Some p => lit ":" ++ p | None => [] end).
  assert (∀ c, c = 64 ∨ c = 91 → c ∉ hp) as Hhp.
  { intros c Hc. unfold hp. rewrite not_elem_of_app. split.
    - eapply avoids_notin; [exact Hhost|]. by destruct Hc as [-> | ->].
    - destruct port as [p|]; [|apply not_elem_of_nil].
      cbn [port_ok] in Hport. apply andb_true_iff in Hport as [Hp _].
      rewrite not_elem_of_app. split.
      + apply contains_false. by destruct Hc as [-> | ->].
      + eapply avoids_notin; [exact Hp|]. by destruct Hc as [-> | ->]. }
  assert ((Str.rpartition (chr "@")
             (match user with Some u => u ++ lit "@" | None => [] end ++ hp)).2
          = hp) as ->.
  { unfold Str.rpartition. destruct user as [u|].
    - rewrite <- app_assoc. change (lit "@" ++ hp) with (64 :: hp).
      rewrite (rfind_app (chr "@")) by (apply Hhp; by left). cbn [snd].
      rewrite (cons_middle 64 u hp), app_assoc.
      apply drop_app_length'. rewrite length_app. simpl. lia.
    - cbn [app]. by rewrite (proj2 (rfind_None _ _)) by (apply Hhp; by left). }
  assert (Str.partition (chr "[") hp = (hp, [], [])) as ->.
  { unfold Str.partition.
    by rewrite (proj2 (find_None _ _)) by (apply Hhp; by right). }
  assert (Str.partition (chr ":") hp
          = (host, match port with Some _ => [58] | None => [] end,
             default [] port)) as ->.
  { unfold Str.partition, hp.
    assert (58 ∉ host) as H58
      by (eapply avoids_notin; [exact Hhost | reflexivity]).
    destruct port as [p|].
    - change (lit ":" ++ p) with (58 :: p).
      rewrite find_app, (proj2 (find_None _ _)) by done.
      cbn [Str.find]. rewrite N.eqb_refl. cbn [fmap option_fmap option_map].
      rewrite Nat.add_0_r, take_app_length.
      do 2 f_equal. rewrite (cons_middle 58 host p), app_assoc.
      apply drop_app_length'. rewrite length_app. simpl. lia.
    - rewrite app_nil_r. by rewrite (proj2 (find_None _ _)) by done. }
  by rewrite (bool_decide_true ([] = [])) by done.
Qed.

Lemma hostname_authority parsed user host port :
  netloc parsed = authority user host port →
  host ≠ [] →
  avoids (lit "@[:%") host = true →
  Str.isascii host = true →
  port_ok port = true →
  hostname parsed = Some (Str.ascii_lower host).
Proof.
  intros Hn Hne Hhost Hascii Hport. unfold hostname.
  rewrite Hn, _hostinfo_authority; [| | done].
  - rewrite bool_decide_false by done. unfold Str.partition.
    rewrite (proj2 (find_None (chr "%") host))
      by (eapply avoids_notin; [exact Hhost | reflexivity]).
    by rewrite ascii_lower_isascii, !app_nil_r.
  - eapply avoids_weaken; [|exact Hhost]. reflexivity.
Qed.

(** A host that is one of the four known ones up to letter case has no
    character with a meaning in a network location. *)
Lemma known_host_plain host :
  Str.ascii_lower host ∈ short_hosts ++ long_hosts →
  host ≠ [] ∧
  avoids (lit "/?#[]@:%" ++ unsafe) host = true ∧
  Str.isascii host = true.
Proof.
  intros Hin.
  assert (Str.ascii_lower host ≠ [] ∧
          avoids (lit "/?#[]@:%" ++ unsafe) (Str.ascii_lower host) = true ∧
          Str.isascii (Str.ascii_lower host) = true) as (Hne & Hav & Hascii).
  { revert Hin. generalize (Str.ascii_lower host). intros h.
    unfold short_hosts, long_hosts. cbn [app].
    rewrite !elem_of_cons, elem_of_nil.
    by intros [-> | [-> | [-> | [-> | []]]]]. }
  split_and!.
  - by intros ->.
  - by apply ascii_lower_avoids.
  - by apply ascii_lower_isascii_inv.
Qed.

Lemma authority_ok user host port :
  user_ok user = true →
  avoids (lit "/?#[]" ++ unsafe) host = true →
  Str.isascii host = true →
  port_ok port = true →
  avoids (lit "/?#[]" ++ unsafe) (authority user host port) = true ∧
  Str.isascii (authority user host port) = true.
Proof.
  intros Huser Hhost Hascii Hport. unfold authority, Str.isascii.
  rewrite !avoids_app, !forallb_app, !andb_true_iff.
  fold (Str.isascii host). split_and!; try done.
  - destruct user as [u|]; [|done]. cbn [user_ok] in Huser.
    apply andb_true_iff in Huser as [Hu _].
    by rewrite avoids_app, Hu.
  - destruct port as [p|]; [|done]. cbn [port_ok] in Hport.
    apply andb_true_iff in Hport as [Hp _].
    rewrite avoids_app, andb_true_iff. split; [done|].
    eapply avoids_weaken; [|exact Hp]. reflexivity.
  - destruct user as [u|]; [|done]. cbn [user_ok] in Huser.
    apply andb_true_iff in Huser as [_ Hu].
    rewrite forallb_app. fold (Str.isascii u). by rewrite Hu.
  - destruct port as [p|]; [|done]. cbn [port_ok] in Hport.
    apply andb_true_iff in Hport as [_ Hp].
    rewrite forallb_app. fold (Str.isascii p). by rewrite Hp.
Qed.

(** The parse of [scheme://user@host:port/p?q#f] on a known host. *)
Lemma urlparse_known_host sch user host port p q f :
  scheme_ok sch = true →
  user_ok user = true →
  Str.ascii_lower host ∈ short_hosts ++ long_hosts →
  port_ok port = true →
  avoids (lit "?#;" ++ unsafe) p = true →
  avoids (lit "#" ++ unsafe) (default [] q) = true →
  avoids unsafe (default [] f) = true →
  ∃ parsed,
    urlparse (sch ++ lit "://" ++ authority user host port ++ lit "/" ++ p ++
              query_suffix q ++ fragment_suffix f) = Returns parsed ∧
    hostname parsed = Some (Str.ascii_lower host) ∧
    path parsed = lit "/" ++ p ∧
    query parsed = default [] q.
Proof.
  intros Hsch Huser Hhost Hport Hp Hq Hf.
  destruct (known_host_plain host Hhost) as (Hne & Hav & Hascii).
  destruct (authority_ok user host port) as [Hnet Hnascii]; try done.
  { eapply avoids_weaken; [|exact Hav]. reflexivity. }
  eexists. split; [by apply urlparse_text|]. split_and!; [|done..].
  apply (hostname_authority _ user host port); try done.
  eapply avoids_weaken; [|exact Hav]. reflexivity.
Qed.

Lemma startswith_prefix (p t : str) : Str.startswith p (p ++ t) = true.
Proof.
  induction p as [|a p IH]; [done|]. cbn [app Str.startswith].
  by rewrite N.eqb_refl, IH.
Qed.

(** X4. On the URL text [sch://[user@]host[:port]/X[?q][#f]] the result
    is [X], the path after its first character, when
    - [sch] starts with an ASCII letter and consists of ASCII letters,
      digits, ['+'], ['-'] and ['.'];
    - the user information and the port, when present, are ASCII and
      have none of ['/'], ['?'], ['#'], ['['], [']'], tab, line feed and
      carriage return, and the port has no ['@'];
    - [host], with its ASCII capitals in lower case, is [youtu.be] or
      [www.youtu.be];
    - [X] has none of ['?'], ['#'], [';'], tab, line feed and carriage
      return;
    - the query string, when present, has none of ['#'], tab, line feed
      and carriage return, and the fragment, when present, has no tab,
      line feed or carriage return. *)
Theorem short_host_url_general sch user host port X q f :
  scheme_ok sch = true →
  user_ok user = true →
  Str.ascii_lower host ∈ short_hosts →
  port_ok port = true →
  avoids (lit "?#;" ++ unsafe) X = true →
  avoids (lit "#" ++ unsafe) (default [] q) = true →
  avoids unsafe (default [] f) = true →
  extract_video_id
    (sch ++ lit "://" ++ authority user host port ++ lit "/" ++ X ++
     query_suffix q ++ fragment_suffix f)
  = Returns (Some X).
Proof.
  intros Hsch Huser Hhost Hport HX Hq Hf.
  destruct (urlparse_known_host sch user host port X q f)
    as (parsed & Hparse & Hh & Hpath & _); try done.
  { apply elem_of_app. by left. }
  rewrite (extract_short_host _ parsed Hparse).
  - by rewrite Hpath.
  - rewrite Hh. revert Hhost. unfold short_hosts.
    rewrite !elem_of_cons, elem_of_nil. intros [-> | [-> | []]]; auto.
Qed.

Lemma long_host_tests (h : str) :
  h ∈ long_hosts →
  in_tuple (Some h) [lit "youtu.be"; lit "www.youtu.be"] = false ∧
  in_tuple (Some h) [lit "youtube.com"; lit "www.youtube.com"] = true.
Proof.
  unfold long_hosts. rewrite !elem_of_cons, elem_of_nil.
  by intros [-> | [-> | []]].
Qed.

(** X5. On the URL text [sch://[user@]host[:port]/seg/X[/rest][?q][#f]],
    where [seg] is [embed] or [v], the result is the segment [X], and
    the further segments [rest] are ignored, when
    - [sch] starts with an ASCII letter and consists of ASCII letters,
      digits, ['+'], ['-'] and ['.'];
    - the user information and the port, when present, are ASCII and
      have none of ['/'], ['?'], ['#'], ['['], [']'], tab, line feed and
      carriage return, and the port has no ['@'];
    - [host], with its ASCII capitals in lower case, is [youtube.com] or
      [www.youtube.com];
    - [X] has none of ['/'], ['?'], ['#'], [';'], tab, line feed and
      carriage return, and [rest], when present, none of ['?'], ['#'],
      [';'], tab, line feed and carriage return;
    - the query string, when present, has none of ['#'], tab, line feed
      and carriage return, and the fragment, when present, has no tab,
      line feed or carriage return. *)
Theorem path_segment_url_general sch user host port seg X rest q f :
  scheme_ok sch = true →
  user_ok user = true →
  Str.ascii_lower host ∈ long_hosts →
  port_ok port = true →
  seg = lit "embed" ∨ seg = lit "v" →
  avoids (lit "/?#;" ++ unsafe) X = true →
  avoids (lit "?#;" ++ unsafe) (default [] rest) = true →
  avoids (lit "#" ++ unsafe) (default [] q) = true →
  avoids unsafe (default [] f) = true →
  extract_video_id
    (sch ++ lit "://" ++ authority user host port ++ lit "/" ++ seg ++
     lit "/" ++ X ++ segments_suffix rest ++ query_suffix q ++
     fragment_suffix f)
  = Returns (Some X).
Proof.
  intros Hsch Huser Hhost Hport Hseg HX Hrest Hq Hf.
  set (p := seg ++ lit "/" ++ X ++ segments_suffix rest).
  assert (avoids (lit "?#;" ++ unsafe) p = true) as Hp.
  { unfold p. rewrite !avoids_app, !andb_true_iff. split_and!.
    - by destruct Hseg as [-> | ->].
    - reflexivity.
    - eapply avoids_weaken; [|exact HX]. reflexivity.
    - destruct rest as [r|]; [|done]. unfold segments_suffix.
      by rewrite avoids_app, andb_true_iff. }
  destruct (urlparse_known_host sch user host port p q f)
    as (parsed & Hparse & Hh & Hpath & _); try done.
  { apply elem_of_app. by right. }
  revert Hparse. unfold p. rewrite <- !app_assoc. intros Hparse.
  unfold extract_video_id. rewrite Hparse. cbn [mbind outcome_bind].
  destruct (long_host_tests _ Hhost) as [Hs Hl]. rewrite Hh, Hs, Hl, Hpath.
  assert (47 ∉ seg) as Hseg47
    by (apply contains_false; by destruct Hseg as [-> | ->]).
  assert (47 ∉ X) as HX47
    by (eapply avoids_notin; [exact HX | reflexivity]).
  assert (list_index (Str.split (chr "/") (lit "/" ++ p)) 2 = Returns X)
    as Hindex.
  { unfold p. change (lit "/" ++ seg ++ lit "/" ++ X ++ segments_suffix rest)
      with ([] ++ 47 :: seg ++ 47 :: X ++ segments_suffix rest).
    rewrite (split_app (chr "/")) by apply not_elem_of_nil.
    rewrite (split_app (chr "/")) by done.
    destruct rest as [r|]; unfold segments_suffix.
    - change (lit "/" ++ r) with (47 :: r).
      by rewrite (split_app (chr "/")).
    - by rewrite app_nil_r, split_id. }
  destruct Hseg as [-> | ->]; unfold p in *.
  - rewrite bool_decide_false by (intros [= ?]).
    assert (Str.startswith (lit "/embed/")
              (lit "/" ++ lit "embed" ++ lit "/" ++ X ++ segments_suffix rest)
            = true) as -> by apply (startswith_prefix (lit "/embed/")).
    by rewrite Hindex.
  - rewrite bool_decide_false by (intros [= ?]).
    change (Str.startswith (lit "/embed/")
              (lit "/" ++ lit "v" ++ lit "/" ++ X ++ segments_suffix rest))
      with false.
    assert (Str.startswith (lit "/v/")
              (lit "/" ++ lit "v" ++ lit "/" ++ X ++ segments_suffix rest)
            = true) as -> by apply (startswith_prefix (lit "/v/")).
    by rewrite Hindex.
Qed.

Lemma extract_watch_text sch user host port qs f x xs :
  scheme_ok sch = true →
  user_ok user = true →
  Str.ascii_lower host ∈ long_hosts →
  port_ok port = true →
  avoids (lit "#" ++ unsafe) qs = true →
  avoids unsafe (default [] f) = true →
  query_values (lit "v") qs = x :: xs →
  extract_video_id
    (sch ++ lit "://" ++ authority user host port ++ lit "/watch?" ++ qs ++
     fragment_suffix f)
  = Returns (Some x).
Proof.
  intros Hsch Huser Hhost Hport Hqs Hf Hv.
  destruct (urlparse_known_host sch user host port (lit "watch") (Some qs) f)
    as (parsed & Hparse & Hh & Hpath & Hq); try done.
  { apply elem_of_app. by right. }
  eapply extract_watch_parsed; [exact Hparse | | exact Hpath |].
  - rewrite Hh. revert Hhost. unfold long_hosts.
    rewrite !elem_of_cons, elem_of_nil. intros [-> | [-> | []]]; auto.
  - by rewrite Hq.
Qed.

(** X6. On the URL text [sch://[user@]host[:port]/watch?qs[#f]] the
    result is the first non-empty value, form-decoded, that the query
    string [qs] gives to [v], when there is one and
    - [sch] starts with an ASCII letter and consists of ASCII letters,
      digits, ['+'], ['-'] and ['.'];
    - the user information and the port, when present, are ASCII and
      have none of ['/'], ['?'], ['#'], ['['], [']'], tab, line feed and
      carriage return, and the port has no ['@'];
    - [host], with its ASCII capitals in lower case, is [youtube.com] or
      [www.youtube.com];
    - [qs] has none of ['#'], tab, line feed and carriage return, and
      the fragment, when present, has no tab, line feed or carriage
      return. *)
Theorem watch_url_general sch user host port qs f x xs :
  scheme_ok sch = true →
  user_ok user = true →
  Str.ascii_lower host ∈ long_hosts →
  port_ok port = true →
  avoids (lit "#" ++ unsafe) qs = true →
  avoids unsafe (default [] f) = true →
  query_values (lit "v") qs = x :: xs →
  extract_video_id
    (sch ++ lit "://" ++ authority user host port ++ lit "/watch?" ++ qs ++
     fragment_suffix f)
  = Returns (Some x).
Proof. apply extract_watch_text. Qed.

Lemma split_concat c (a b : str) :
  Str.split c (a ++ c :: b) = Str.split c a ++ Str.split c b.
Proof.
  induction a as [|x a IH]; cbn [app Str.split].
  - by rewrite N.eqb_refl.
  - rewrite IH. destruct (x =? c); [done|].
    destruct (Str.split c a) as [|f0 fs] eqn:Hsplit;
      [by apply split_nonempty in Hsplit | done].
Qed.

(** The values of a parameter in two query strings joined by ['&']. *)
Lemma query_values_concat name (a b : str) :
  query_values name (a ++ 38 :: b)
  = query_values name a ++ query_values name b.
Proof. unfold query_values. by rewrite (split_concat (chr "&")), omap_app. Qed.

Lemma query_values_v X :
  X ≠ [] → 38 ∉ X → query_values (lit "v") (lit "v=" ++ X) = [form_decode X].
Proof.
  intros Hne HX. unfold query_values. rewrite split_id.
  - cbn [omap list_omap]. change (lit "v=" ++ X) with (lit "v" ++ 61 :: X).
    rewrite (split1_app (chr "=")) by by apply contains_false.
    by rewrite bool_decide_true.
  - rewrite not_elem_of_app. split; [by apply contains_false | done].
Qed.

(** X7. On [https://www.youtube.com/watch?pre&v=X&post] the result is
    [X], form-decoded, when
    - [X] is not empty and has none of ['&'], ['#'], tab, line feed and
      carriage return;
    - [pre] and [post] have none of ['#'], tab, line feed and carriage
      return;
    - [pre] gives [v] no non-empty value.
    Under these conditions the parameters in [pre] and [post] do not
    change the result. *)
Theorem watch_other_parameters (pre X post : str) :
  query_values (lit "v") pre = [] →
  X ≠ [] →
  avoids (lit "&#" ++ unsafe) X = true →
  avoids (lit "#" ++ unsafe) pre = true →
  avoids (lit "#" ++ unsafe) post = true →
  extract_video_id
    (lit "https://www.youtube.com/watch?" ++ pre ++ lit "&v=" ++ X ++
     lit "&" ++ post)
  = Returns (Some (form_decode X)).
Proof.
  intros Hpre Hne HX Hav_pre Hav_post.
  set (qs := pre ++ lit "&v=" ++ X ++ lit "&" ++ post).
  assert (query_values (lit "v") qs
          = form_decode X :: query_values (lit "v") post) as Hv.
  { unfold qs. change (lit "&v=" ++ X ++ lit "&" ++ post)
      with (38 :: lit "v=" ++ X ++ 38 :: post).
    rewrite query_values_concat, Hpre, app_assoc, query_values_concat.
    rewrite query_values_v; [done.. |].
    eapply avoids_notin; [exact HX | reflexivity]. }
  assert (avoids (lit "#" ++ unsafe) qs = true) as Hqs.
  { unfold qs. rewrite !avoids_app, !andb_true_iff. split_and!; try done.
    eapply avoids_weaken; [|exact HX]. reflexivity. }
  pose proof (extract_watch_text (lit "https") None (lit "www.youtube.com")
                None qs None (form_decode X)
                (query_values (lit "v") post) eq_refl eq_refl) as Hex.
  unfold authority, fragment_suffix in Hex. rewrite !app_nil_r in Hex.
  apply Hex; try done.
  unfold long_hosts. apply list_elem_of_further, list_elem_of_here.
Qed.

(** X13. The URL text [sch://[user@]host[:port]/p[?q][#f]] has no
    identifier, [extract_video_id] returns none, when
    - [sch] starts with an ASCII letter and consists of ASCII letters,
      digits, ['+'], ['-'] and ['.'];
    - the user information and the port, when present, are ASCII and
      have none of ['/'], ['?'], ['#'], ['['], [']'], tab, line feed and
      carriage return, and the port has no ['@'];
    - [host] is not empty, is ASCII, has none of ['/'], ['?'], ['#'],
      ['['], [']'], ['@'], [':'], ['%'], tab, line feed and carriage
      return, and with its ASCII capitals in lower case is none of the
      four known hosts;
    - the path [p] has none of ['?'], ['#'], [';'], tab, line feed and
      carriage return;
    - the query string, when present, has none of ['#'], tab, line feed
      and carriage return, and the fragment, when present, has no tab,
      line feed or carriage return.
    A user information that is itself a known host, as in
    [https://youtu.be@vimeo.com/X], does not make the URL recognized. *)
Theorem other_host_is_unrecognized sch user host port p q f :
  scheme_ok sch = true →
  user_ok user = true →
  host_ok host = true →
  Str.ascii_lower host ∉ short_hosts ++ long_hosts →
  port_ok port = true →
  avoids (lit "?#;" ++ unsafe) p = true →
  avoids (lit "#" ++ unsafe) (default [] q) = true →
  avoids unsafe (default [] f) = true →
  extract_video_id
    (sch ++ lit "://" ++ authority user host port ++ lit "/" ++ p ++
     query_suffix q ++ fragment_suffix f)
  = Returns None.
Proof.
  unfold host_ok. rewrite !andb_true_iff, negb_true_iff, bool_decide_eq_false.
  intros Hsch Huser [[Hne Hav] Hascii] Hhost Hport Hp Hq Hf.
  destruct (authority_ok user host port) as [Hnet Hnascii]; try done.
  { eapply avoids_weaken; [|exact Hav]. reflexivity. }
  unfold extract_video_id. rewrite urlparse_text by done.
  cbn [mbind outcome_bind].
  rewrite (hostname_authority _ user host port); try done.
  2: { eapply avoids_weaken; [|exact Hav]. reflexivity. }
  rewrite not_elem_of_app in Hhost. destruct Hhost as [Hs Hl].
  cbn [in_tuple]. fold short_hosts long_hosts.
  by rewrite !bool_decide_false.
Qed.

Lemma remove_unsafe_app (s t : str) :
  foldl (λ url b, Str.remove b url) (s ++ t) _UNSAFE_URL_BYTES_TO_REMOVE
  = foldl (λ url b, Str.remove b url) s _UNSAFE_URL_BYTES_TO_REMOVE ++
    foldl (λ url b, Str.remove b url) t _UNSAFE_URL_BYTES_TO_REMOVE.
Proof.
  unfold _UNSAFE_URL_BYTES_TO_REMOVE, Str.remove. cbn [foldl].
  by rewrite !filter_app.
Qed.

(** Without a network location there is no host. *)
Lemma extract_no_netloc url parsed :
  urlparse url = Returns parsed →
  netloc parsed = [] →
  extract_video_id url = Returns None.
Proof.
  intros Hparse Hnet. unfold extract_video_id.
  rewrite Hparse. cbn [mbind outcome_bind].
  assert (hostname parsed = None) as ->; [|done].
  unfold hostname. by rewrite Hnet.
Qed.

Lemma urlparse_netloc url r :
  urlsplit url = Returns r →
  ∃ parsed, urlparse url = Returns parsed ∧ netloc parsed = netloc r.
Proof.
  intros Hsplit. unfold urlparse. rewrite Hsplit. cbn [mbind outcome_bind].
  destruct (_ && _); [destruct (_splitparams (path r))|]; by eexists.
Qed.

(** A text that starts with a letter and has a ['/'] before any [':'] has
    neither scheme nor network location. *)
Lemma urlsplit_without_scheme head rest :
  match head with a :: _ => Str.is_ascii_alpha a | [] => false end = true →
  avoids (lit ":" ++ unsafe) head = true →
  ∃ r, urlsplit (head ++ lit "/" ++ rest) = Returns r ∧ netloc r = [].
Proof.
  intros Ha Hhead. destruct head as [|a head]; [done|].
  unfold urlsplit. cbn [app]. rewrite lstrip_alpha by done.
  replace (a :: head ++ lit "/" ++ rest) with (((a :: head) ++ [47]) ++ rest)
    by (cbn [app]; by rewrite <- app_assoc).
  rewrite remove_unsafe_app.
  rewrite (remove_unsafe_id ((a :: head) ++ [47])).
  2: { rewrite avoids_app, andb_true_iff. split; [|done].
       eapply avoids_weaken; [|exact Hhead]. reflexivity. }
  set (r := foldl _ rest _). rewrite <- app_assoc.
  change ([47] ++ r) with (47 :: r).
  assert (58 ∉ a :: head) as H58
    by (eapply avoids_notin; [exact Hhead | reflexivity]).
  assert ((a :: head) ++ 47 :: r = a :: head ++ 47 :: r) as Hu by done.
  set (u := (a :: head) ++ 47 :: r) in *.
  assert (match Str.find (chr ":") u, u with
          | Some (S i' as i), c0 :: _ =>
              if Str.is_ascii_alpha c0 &&
                 forallb (λ c, Str.contains c scheme_chars) (take i u)
              then (lower (take i u), drop (S i) u)
              else ([], u)
          | _, _ => ([], u)
          end = ([], u)) as ->.
  { destruct (Str.find (chr ":") u) as [[|i]|] eqn:Hfind;
      [by rewrite Hu | | by rewrite Hu].
    assert (forallb (λ c, Str.contains c scheme_chars) (take (S i) u) = false)
      as Hfalse.
    2: { rewrite Hfalse, Hu. by rewrite andb_false_r. }
    apply not_true_is_false. rewrite forallb_forall. intros Hall.
    assert (In 47 (take (S i) u)) as Hin; [|by apply Hall in Hin].
    apply list_elem_of_In, list_elem_of_lookup. exists (length (a :: head)).
    revert Hfind. unfold u.
    rewrite find_app, (proj2 (find_None _ _)) by done.
    cbn [Str.find]. change (47 =? chr ":") with false. cbv iota.
    destruct (Str.find (chr ":") r) as [j|]; [|done].
    cbn [fmap option_fmap option_map]. intros [= Hi].
    rewrite lookup_take_lt by (cbn [length]; lia).
    by rewrite lookup_app_r, Nat.sub_diag by done. }
  rewrite (bool_decide_false (take 2 u = lit "//")).
  2: { rewrite Hu. cbn [take]. intros [= -> _]. done. }
  cbn [mbind outcome_bind].
  assert (_checknetloc [] = Returns ()) as -> by done.
  repeat case_match; by eexists.
Qed.

(** X8. A text without scheme and ["//"], such as [youtu.be/X] or
    [www.youtube.com/watch?v=X], is never recognized: when it starts with
    a letter and its first ['/'] comes before any [':'],
    [extract_video_id] returns none. *)
Theorem text_without_scheme_is_unrecognized (head rest : str) :
  match head with a :: _ => Str.is_ascii_alpha a | [] => false end = true →
  avoids (lit ":" ++ unsafe) head = true →
  extract_video_id (head ++ lit "/" ++ rest) = Returns None.
Proof.
  intros Ha Hhead.
  destruct (urlsplit_without_scheme head rest Ha Hhead) as (r & Hsplit & Hr).
  destruct (urlparse_netloc _ r Hsplit) as (parsed & Hparse & Hnet).
  apply (extract_no_netloc _ parsed Hparse). by rewrite Hnet.
Qed.

End UrlText.

(** * Further properties of [get_transcript] *)

Section ResultFacts.

Context `{PyRuntime}.
Variable segment : Type.
Implicit Types (svc : service (list segment)) (url id : str).

(** X9. [get_transcript] never raises: whatever the URL and whatever the
    service does, it returns one of the three records, and it calls the
    service at most once. *)
Theorem get_transcript_never_raises svc url :
  ∃ d, (run svc [] (get_transcript segment url)).1 = Returns d ∧
       (d = invalid_url_result ∨
        (∃ msg, d = failure_result msg) ∨
        (∃ t id, d = success_result t id)) ∧
       (length (run svc [] (get_transcript segment url)).2 ≤ 1)%nat.
Proof.
  rewrite run_get_transcript.
  destruct (extract_video_id url) as [[id|]|e]; cbn [fst snd length].
  - case_bool_decide; cbn [fst snd length].
    + eexists. split_and!; [done | by left | lia].
    + destruct (svc 0%nat id) as [t|e]; eexists; split_and!;
        [done | right; right; by eexists _, _ | lia
        | done | right; left; by eexists | lia].
  - eexists. split_and!; [done | by left | lia].
  - eexists. split_and!; [done | right; left; by eexists | lia].
Qed.

(** X10. A success record is sound: it is only returned when the service
    was called once, with the extracted identifier, which is not empty,
    and returned the transcript of the record. *)
Theorem success_record_is_sound svc url (t : list segment) id :
  (run svc [] (get_transcript segment url)).1
    = Returns (success_result t id) →
  extract_video_id url = Returns (Some id) ∧
  id ≠ [] ∧
  (run svc [] (get_transcript segment url)).2 = [(id, Returns t)].
Proof.
  rewrite run_get_transcript.
  destruct (extract_video_id url) as [[id'|]|e]; cbn [fst snd];
    [|done..].
  case_bool_decide as Hid; cbn [fst snd]; [done|].
  destruct (svc 0%nat id') as [t'|e] eqn:Hsvc; [|done].
  by intros [= -> ->].
Qed.

(** X11. The invalid-URL record is returned exactly when the extraction
    returns none or the empty string, and then the service is not
    called. *)
Theorem invalid_record_iff_no_identifier svc url :
  ((run svc [] (get_transcript segment url)).1 = Returns invalid_url_result
   ↔ ∃ video_id, extract_video_id url = Returns video_id ∧
                 falsy video_id = true) ∧
  ((run svc [] (get_transcript segment url)).1 = Returns invalid_url_result
   → (run svc [] (get_transcript segment url)).2 = []).
Proof.
  rewrite run_get_transcript.
  destruct (extract_video_id url) as [[id|]|e]; cbn [fst snd].
  - case_bool_decide as Hid; cbn [fst snd].
    + split; [|done]. split; [|done]. intros _. exists (Some id).
      split; [done|]. cbn [falsy]. by rewrite bool_decide_true.
    + split.
      * split; [by destruct (svc 0%nat id)|].
        intros (v & [= <-] & Hf). cbn [falsy] in Hf.
        by rewrite bool_decide_false in Hf.
      * by destruct (svc 0%nat id).
  - split; [|done]. split; [|done]. intros _. by exists None.
  - split; [|done]. split; [done|]. by intros (v & ? & _).
Qed.

(** X12. A failure record has one of two origins, and its message is the
    text of the exception: either the extraction raised and the service
    was not called, or the service was called once with the extracted
    identifier and raised. *)
Theorem failure_record_origin svc url (msg : str) :
  (run svc [] (get_transcript segment url)).1
    = Returns (failure_result msg) →
  (∃ e, extract_video_id url = Raises e ∧ msg = exn_str e ∧
        (run svc [] (get_transcript segment url)).2 = []) ∨
  (∃ id e, extract_video_id url = Returns (Some id) ∧ id ≠ [] ∧
           msg = exn_str e ∧
           (run svc [] (get_transcript segment url)).2 = [(id, Raises e)]).
Proof.
  rewrite run_get_transcript.
  destruct (extract_video_id url) as [[id|]|e]; cbn [fst snd].
  - case_bool_decide as Hid; cbn [fst snd]; [done|].
    destruct (svc 0%nat id) as [t|e] eqn:Hsvc; [done|].
    intros [= <-]. right. by exists id, e.
  - done.
  - intros [= <-]. left. by exists e.
Qed.

End ResultFacts.

(** * Instances of the further properties *)

Lemma extract_video_id_raises_witness :
  ((@urlparse sample_runtime (lit "http://[youtu.be/X")
    = Raises (ValueError (lit "Invalid IPv6 URL")) ∧
    ∃ msg, ValueError (lit "Invalid IPv6 URL") = ValueError msg) ∨
   (ValueError (lit "Invalid IPv6 URL") = KeyError (lit "v") ∧
    ∃ parsed,
      @urlparse sample_runtime (lit "http://[youtu.be/X") = Returns parsed ∧
      @hostname sample_runtime parsed ∈ Some <$> long_hosts ∧
      path parsed = lit "/watch" ∧
      @query_values sample_runtime (lit "v") (query parsed) = [])).
Proof.
  apply (@extract_video_id_raises sample_runtime (lit "http://[youtu.be/X")
           (ValueError (lit "Invalid IPv6 URL"))).
  vm_compute. reflexivity.
Defined.

Lemma watch_without_value_raises_witness :
  @extract_video_id sample_runtime
    (lit "https://www.youtube.com/watch?list=PL1&v=")
  = Raises (KeyError (lit "v")).
Proof.
  apply (@watch_without_value_raises sample_runtime
           (lit "https://www.youtube.com/watch?list=PL1&v=")
           {| scheme := lit "https"; netloc := lit "www.youtube.com";
              path := lit "/watch"; params := []; query := lit "list=PL1&v=";
              fragment := [] |}).
  - vm_compute. reflexivity.
  - apply in_tuple_long. vm_compute. reflexivity.
  - reflexivity.
  - vm_compute. reflexivity.
Defined.

Lemma path_identifier_has_no_slash_witness :
  chr "/" ∉ lit "abc".
Proof.
  apply (@path_identifier_has_no_slash sample_runtime
           (lit "https://youtube.com/embed/abc/def")
           {| scheme := lit "https"; netloc := lit "youtube.com";
              path := lit "/embed/abc/def"; params := []; query := [];
              fragment := [] |} (lit "abc")).
  - vm_compute. reflexivity.
  - apply in_tuple_long. vm_compute. reflexivity.
  - discriminate.
  - vm_compute. reflexivity.
Defined.

Lemma short_host_url_general_witness :
  @extract_video_id sample_runtime
    (lit "HTTP://user:pw@YouTu.BE:443/abc123?t=42#top")
  = Returns (Some (lit "abc123")).
Proof.
  apply (@short_host_url_general sample_runtime (lit "HTTP")
           (Some (lit "user:pw")) (lit "YouTu.BE") (Some (lit "443"))
           (lit "abc123") (Some (lit "t=42")) (Some (lit "top")));
    try reflexivity.
  vm_compute. apply list_elem_of_here.
Defined.

Lemma path_segment_url_general_witness :
  @extract_video_id sample_runtime
    (lit "http://WWW.YouTube.com:80/embed/abc123/extra?start=5#t")
  = Returns (Some (lit "abc123")).
Proof.
  apply (@path_segment_url_general sample_runtime (lit "http") None
           (lit "WWW.YouTube.com") (Some (lit "80")) (lit "embed")
           (lit "abc123") (Some (lit "extra")) (Some (lit "start=5"))
           (Some (lit "t")));
    try reflexivity.
  - vm_compute. apply list_elem_of_further, list_elem_of_here.
  - by left.
Defined.

Lemma watch_url_general_witness :
  @extract_video_id sample_runtime
    (lit "http://YouTube.com/watch?feature=share&v=abc123#t=10")
  = Returns (Some (lit "abc123")).
Proof.
  apply (@watch_url_general sample_runtime (lit "http") None
           (lit "YouTube.com") None (lit "feature=share&v=abc123")
           (Some (lit "t=10")) (lit "abc123") []);
    try reflexivity.
  vm_compute. apply list_elem_of_here.
Defined.

Lemma watch_other_parameters_witness :
  @extract_video_id sample_runtime
    (lit "https://www.youtube.com/watch?feature=share&v=abc+123&t=10s")
  = Returns (Some (@form_decode sample_runtime (lit "abc+123"))).
Proof.
  apply (@watch_other_parameters sample_runtime (lit "feature=share")
           (lit "abc+123") (lit "t=10s")); try reflexivity.
  discriminate.
Defined.

Lemma text_without_scheme_is_unrecognized_witness :
  @extract_video_id sample_runtime (lit "www.youtube.com/watch?v=abc123")
  = Returns None.
Proof.
  apply (@text_without_scheme_is_unrecognized sample_runtime
           (lit "www.youtube.com") (lit "watch?v=abc123")); reflexivity.
Defined.

Lemma success_record_is_sound_witness :
  let url := lit "https://youtu.be/abc123" in
  @extract_video_id sample_runtime url = Returns (Some (lit "abc123")) ∧
  lit "abc123" ≠ [] ∧
  (run sample_service [] (@get_transcript sample_runtime caption url)).2
  = [(lit "abc123", Returns sample_transcript)].
Proof.
  apply (@success_record_is_sound sample_runtime caption sample_service
           (lit "https://youtu.be/abc123") sample_transcript (lit "abc123")).
  vm_compute. reflexivity.
Defined.

Lemma failure_record_origin_witness :
  let url := lit "https://youtu.be/abc123" in
  let msg := lit "Could not retrieve a transcript" in
  (∃ e, @extract_video_id sample_runtime url = Raises e ∧ msg = exn_str e ∧
        (run failing_service [] (@get_transcript sample_runtime caption url)).2
        = []) ∨
  (∃ id e, @extract_video_id sample_runtime url = Returns (Some id) ∧
           id ≠ [] ∧ msg = exn_str e ∧
           (run failing_service []
              (@get_transcript sample_runtime caption url)).2
           = [(id, Raises e)]).
Proof.
  apply (@failure_record_origin sample_runtime caption failing_service
           (lit "https://youtu.be/abc123")
           (lit "Could not retrieve a transcript")).
  vm_compute. reflexivity.
Defined.

Lemma other_host_is_unrecognized_witness :
  @extract_video_id sample_runtime (lit "https://youtu.be@example.com/abc123")
  = Returns None.
Proof.
  apply (@other_host_is_unrecognized sample_runtime (lit "https")
           (Some (lit "youtu.be")) (lit "example.com") None (lit "abc123")
           None None); try reflexivity.
  apply (bool_decide_unpack _). vm_compute. exact I.
Defined.
